(** * GitHub trending crawler: fetch-and-extract pipeline

    A shallow embedding of [app/crawler/github_crawler.py]
    (class [GitHubTrendingCrawler]) together with the small part of the
    Python runtime it relies on: [str] methods, [float()] / [int()]
    conversions on binary64, the two regular expressions of the module,
    the BeautifulSoup queries it issues, and the effects of a fetch
    (random draws, sleeps, HTTP requests).

    Conventions.
    - A Python [str] is a [string]; its characters are read as the code
      points U+0000..U+00FF.
    - A Python [float] is a [spec_float] at precision 53 and maximal
      exponent 1024 (IEEE binary64, round to nearest even).
    - A Python [int] is a [Z].
    - A call that may raise returns an [outcome]; [try ... except] is
      [try_except].
    - [logger] calls do not influence any result and are left out. *)

#[local] Set Warnings "-register-all".
From Stdlib Require Import ZArith List String Ascii Bool Lia.
From Stdlib Require Import Numbers.DecimalString.
From Stdlib Require Import Floats.SpecFloat.
Import ListNotations.
Local Open Scope string_scope.
Local Open Scope Z_scope.

(** ** Exceptions *)

(** The exception classes that occur in the module.  All of them derive
    from [Exception]; pydantic's [ValidationError] derives from
    [ValueError]; [ParserRejectedMarkup] is what [BeautifulSoup] raises
    when [html.parser] gives up on the markup. *)
Inductive exn : Type :=
| ValueError (msg : string)
| TypeError (msg : string)
| OverflowError (msg : string)
| ValidationError (msg : string)
| Exception_ (msg : string)
| ClientError (msg : string)
| ParserRejectedMarkup (msg : string).

Inductive outcome (A : Type) : Type :=
| Ret (a : A)
| Raise (e : exn).
Arguments Ret {A} a.
Arguments Raise {A} e.

Definition obind {A B} (c : outcome A) (k : A -> outcome B) : outcome B :=
  match c with
  | Ret a => k a
  | Raise e => Raise e
  end.

Definition try_except {A} (body : outcome A) (catches : exn -> bool)
           (handler : exn -> outcome A) : outcome A :=
  match body with
  | Ret a => Ret a
  | Raise e => if catches e then handler e else Raise e
  end.

Declare Scope outcome_scope.
Delimit Scope outcome_scope with outcome.
Notation "x <- c ;; k" := (obind c (fun x => k))
  (at level 61, c at next level, right associativity) : outcome_scope.
Notation "' pat <- c ;; k" := (obind c (fun x => match x with pat => k end))
  (at level 61, pat pattern, c at next level, right associativity) : outcome_scope.

(** [str(e)] *)
Definition str_exn (e : exn) : string :=
  match e with
  | ValueError m | TypeError m | OverflowError m
  | ValidationError m | Exception_ m | ClientError m
  | ParserRejectedMarkup m => m
  end.

(** [isinstance(e, (ValueError, TypeError))] *)
Definition is_ValueError_or_TypeError (e : exn) : bool :=
  match e with
  | ValueError _ | ValidationError _ | TypeError _ => true
  | _ => false
  end.

(** [isinstance(e, Exception)] *)
Definition is_Exception (e : exn) : bool := true.

(** ** Python [str] methods *)

Module Str.

Definition code (c : ascii) : N := N_of_ascii c.

Definition between (lo hi : N) (c : ascii) : bool :=
  (N.leb lo (code c) && N.leb (code c) hi)%bool.

(** [c.isspace()], which is also the class [\s] of [re]. *)
Definition isspace (c : ascii) : bool :=
  (between 9 13 c || between 28 32 c
   || N.eqb (code c) 133 || N.eqb (code c) 160)%bool.

(** [c.isdigit()] restricted to decimal digits; the class [\d] of [re]. *)
Definition isdigit (c : ascii) : bool := between 48 57 c.

Definition lower_char (c : ascii) : ascii :=
  if (between 65 90 c
      || (between 192 222 c && negb (N.eqb (code c) 215)))%bool
  then ascii_of_N (code c + 32)
  else c.

(** [s.lower()] *)
Fixpoint lower (s : string) : string :=
  match s with
  | EmptyString => EmptyString
  | String c r => String (lower_char c) (lower r)
  end.

(** [s.replace(x, '')] for a one-character [x]. *)
Fixpoint remove (x : ascii) (s : string) : string :=
  match s with
  | EmptyString => EmptyString
  | String c r => if Ascii.eqb c x then remove x r else String c (remove x r)
  end.

Fixpoint lstrip_by (p : ascii -> bool) (s : string) : string :=
  match s with
  | EmptyString => EmptyString
  | String c r => if p c then lstrip_by p r else s
  end.

Fixpoint rstrip_by (p : ascii -> bool) (s : string) : string :=
  match s with
  | EmptyString => EmptyString
  | String c r =>
      match rstrip_by p r with
      | EmptyString => if p c then EmptyString else String c EmptyString
      | r' => String c r'
      end
  end.

(** [s.strip()] *)
Definition strip (s : string) : string :=
  rstrip_by isspace (lstrip_by isspace s).

(** [s.strip(x)] for a one-character [x]. *)
Definition strip_char (x : ascii) (s : string) : string :=
  rstrip_by (Ascii.eqb x) (lstrip_by (Ascii.eqb x) s).

(** [s.split(x)] for a one-character [x]. *)
Fixpoint split (x : ascii) (s : string) : list string :=
  match s with
  | EmptyString => [EmptyString]
  | String c r =>
      if Ascii.eqb c x then EmptyString :: split x r
      else match split x r with
           | h :: t => String c h :: t
           | [] => [String c EmptyString]
           end
  end.

(** [s.endswith(x)] for a one-character [x]. *)
Fixpoint endswith (s : string) (x : ascii) : bool :=
  match s with
  | EmptyString => false
  | String c EmptyString => Ascii.eqb c x
  | String _ r => endswith r x
  end.

(** [s[:-1]] *)
Fixpoint drop_last (s : string) : string :=
  match s with
  | EmptyString => EmptyString
  | String _ EmptyString => EmptyString
  | String c r => String c (drop_last r)
  end.

(** [sub in s] *)
Fixpoint contains (sub s : string) : bool :=
  (String.prefix sub s
   || match s with
      | EmptyString => false
      | String _ r => contains sub r
      end)%bool.

(** [bool(s)] *)
Definition nonempty (s : string) : bool :=
  match s with
  | EmptyString => false
  | String _ _ => true
  end.

(** [str(n)] for an [int] *)
Definition of_Z (n : Z) : string := NilZero.string_of_int (Z.to_int n).

End Str.

(** ** Python [float] *)

Module Float.

Definition prec : Z := 53.
Definition emax : Z := 1024.

(** *** [float(str)]

    CPython reads the text one character at a time and only
    distinguishes the classes below; letters are compared without
    regard to case. *)
Inductive tok : Type :=
| TDigit (d : Z)
| TSpace
| TUnderscore
| TSign (neg : bool)
| TDot
| TLetter (c : ascii)
| TOther.

Definition classify (c : ascii) : tok :=
  let n := Str.code c in
  if Str.between 48 57 c then TDigit (Z.of_N n - 48)
  else if (Str.between 9 13 c || N.eqb n 32
           || N.eqb n 133 || N.eqb n 160)%bool then TSpace
  else if N.eqb n 95 then TUnderscore
  else if N.eqb n 43 then TSign false
  else if N.eqb n 45 then TSign true
  else if N.eqb n 46 then TDot
  else if Str.between 97 122 c then TLetter c
  else if Str.between 65 90 c then TLetter (ascii_of_N (n + 32))
  else TOther.

Definition tokens (s : string) : list tok :=
  map classify (list_ascii_of_string s).

(** Underscores are accepted between two digits only and are dropped. *)
Fixpoint drop_underscores (prev : tok) (ts : list tok) : option (list tok) :=
  match ts with
  | [] => match prev with TUnderscore => None | _ => Some [] end
  | TUnderscore :: r =>
      match prev with
      | TDigit _ => drop_underscores TUnderscore r
      | _ => None
      end
  | t :: r =>
      match prev, t with
      | TUnderscore, TDigit _ | TDigit _, _ | TSpace, _ | TSign _, _
      | TDot, _ | TLetter _, _ | TOther, _ =>
          option_map (cons t) (drop_underscores t r)
      | TUnderscore, _ => None
      end
  end.

Fixpoint lstrip_space (ts : list tok) : list tok :=
  match ts with
  | TSpace :: r => lstrip_space r
  | _ => ts
  end.

Fixpoint rstrip_space (ts : list tok) : list tok :=
  match ts with
  | [] => []
  | t :: r =>
      match rstrip_space r, t with
      | [], TSpace => []
      | r', _ => t :: r'
      end
  end.

Definition take_sign (ts : list tok) : bool * list tok :=
  match ts with
  | TSign neg :: r => (neg, r)
  | _ => (false, ts)
  end.

Fixpoint take_digits (ts : list tok) : list Z * list tok :=
  match ts with
  | TDigit d :: r => let (ds, r') := take_digits r in (d :: ds, r')
  | _ => ([], ts)
  end.

Definition digits_value (ds : list Z) : Z :=
  fold_left (fun acc d => 10 * acc + d) ds 0.

(** The word spelled by a run of letters, in lower case. *)
Fixpoint word (ts : list tok) : option string :=
  match ts with
  | [] => Some EmptyString
  | TLetter c :: r => option_map (String c) (word r)
  | _ => None
  end.

Definition is_word (w : string) (ts : list tok) : bool :=
  match word ts with
  | Some w' => String.eqb w w'
  | None => false
  end.

(** [digits [. [digits]] | . digits] then [(e|E) [sign] digits]; the
    result [(m, e)] stands for [m * 10^e]. *)
Definition parse_decimal (ts : list tok) : option (Z * Z) :=
  let (ip, r1) := take_digits ts in
  let (fp, r2) := match r1 with
                  | TDot :: r => take_digits r
                  | _ => ([], r1)
                  end in
  match (ip ++ fp)%list with
  | [] => None
  | ds =>
      let m := digits_value ds in
      let scale := Z.of_nat (List.length fp) in
      match r2 with
      | [] => Some (m, - scale)
      | TLetter "e"%char :: r3 =>
          let (eneg, r4) := take_sign r3 in
          match take_digits r4 with
          | ((_ :: _) as es, []) =>
              let x := digits_value es in
              Some (m, (if eneg then - x else x) - scale)
          | _ => None
          end
      | _ => None
      end
  end.

(** The binary64 nearest to [(-1)^neg * m * 10^e]. *)
Definition of_decimal (neg : bool) (m e : Z) : spec_float :=
  match m with
  | Zpos p =>
      if 0 <=? e
      then binary_round prec emax neg (p * Z.to_pos (10 ^ e)) 0
      else SFdiv prec emax (S754_finite neg p 0)
                 (S754_finite false (Z.to_pos (10 ^ (- e))) 0)
  | _ => S754_zero neg
  end.

Definition parse_tokens (ts : list tok) : option spec_float :=
  match drop_underscores TOther ts with
  | None => None
  | Some ts1 =>
      match rstrip_space (lstrip_space ts1) with
      | [] => None
      | ts2 =>
          let (neg, body) := take_sign ts2 in
          if (is_word "inf" body || is_word "infinity" body)%bool
          then Some (S754_infinity neg)
          else if is_word "nan" body then Some S754_nan
          else match parse_decimal body with
               | Some (m, e) => Some (of_decimal neg m e)
               | None => None
               end
      end
  end.

(** [float(s)] *)
Definition of_string (s : string) : outcome spec_float :=
  match parse_tokens (tokens s) with
  | Some x => Ret x
  | None => Raise (ValueError "could not convert string to float")
  end.

(** [float(n)] for an [int]: the nearest binary64, [OverflowError]
    when it is out of range. *)
Definition of_int (n : Z) : outcome spec_float :=
  match binary_normalize prec emax n 0 false with
  | S754_infinity _ => Raise (OverflowError "int too large to convert to float")
  | x => Ret x
  end.

(** [x * n] for a [float] [x] and an [int] [n] *)
Definition mul_int (x : spec_float) (n : Z) : outcome spec_float :=
  (y <- of_int n ;; Ret (SFmul prec emax x y))%outcome.

(** [int(x)]: truncation towards zero. *)
Definition to_int (x : spec_float) : outcome Z :=
  match x with
  | S754_nan => Raise (ValueError "cannot convert float NaN to integer")
  | S754_infinity _ =>
      Raise (OverflowError "cannot convert float infinity to integer")
  | S754_zero _ => Ret 0
  | S754_finite s m e =>
      let v := if 0 <=? e then Zpos m * 2 ^ e else Zpos m / 2 ^ (- e) in
      Ret (if s then - v else v)
  end.

End Float.

(** ** The number/unit parser *)

(** [GitHubTrendingCrawler._parse_number] *)
Definition _parse_number (text : string) : outcome Z :=
  if negb (Str.nonempty text) then Ret 0
  else
    let text := Str.remove ","%char text in
    let text := Str.lower text in
    let '(multiplier, text) :=
      if Str.endswith text "k"%char then (1000, Str.drop_last text)
      else if Str.endswith text "m"%char then (1000000, Str.drop_last text)
      else (1, text) in
    try_except
      (x <- Float.of_string text ;;
       number <- Float.mul_int x multiplier ;;
       Float.to_int number)%outcome
      is_ValueError_or_TypeError
      (fun _ => Ret 0).

(** ** BeautifulSoup documents and queries *)

Module Bs4.

(** A parsed document: text nodes and elements with their attributes
    in source order. *)
Inductive node : Type :=
| Text (s : string)
| Element (name : string) (attrs : list (string * string))
          (contents : list node).

Definition start_tag : Type := (string * list (string * string))%type.

(** A [Tag] handle: the element itself and the start tags of the
    elements that precede it in document order, nearest first (what
    [find_previous] walks through). *)
Record Tag : Type := mkTag {
  name : string;
  attrs : list (string * string);
  contents : list node;
  previous : list start_tag
}.

Fixpoint lookup (key : string) (l : list (string * string)) : option string :=
  match l with
  | [] => None
  | (k, v) :: r => if String.eqb k key then Some v else lookup key r
  end.

(** [tag.get(key)] *)
Definition get (t : Tag) (key : string) : option string :=
  lookup key (attrs t).

(** [tag.get(key, default)] *)
Definition get_default (t : Tag) (key default : string) : string :=
  match get t key with
  | Some v => v
  | None => default
  end.

(** The whitespace-separated values of a multi-valued attribute. *)
Fixpoint words (s : string) : list string :=
  match s with
  | EmptyString => []
  | String c r =>
      if Str.isspace c then words r
      else match r with
           | EmptyString => [String c EmptyString]
           | String c' _ =>
               if Str.isspace c' then String c EmptyString :: words r
               else match words r with
                    | h :: t => String c h :: t
                    | [] => [String c EmptyString]
                    end
           end
  end.

(** The filters the crawler uses: a tag name, optionally [class_=...],
    optionally one more attribute with its exact value. *)
Record selector : Type := mkSel {
  sel_name : string;
  sel_class : option string;
  sel_attr : option (string * string)
}.

Definition by_name (n : string) : selector := mkSel n None None.
Definition by_class (n c : string) : selector := mkSel n (Some c) None.
Definition by_attr (n k v : string) : selector := mkSel n None (Some (k, v)).

(** [class_=c] matches when one of the element's classes is [c], or
    when its classes joined by single spaces read [c]. *)
Definition class_matches (c : string) (l : list (string * string)) : bool :=
  match lookup "class" l with
  | None => false
  | Some v =>
      let ws := words v in
      (existsb (String.eqb c) ws || String.eqb (String.concat " " ws) c)%bool
  end.

Definition matches (sel : selector) (t : start_tag) : bool :=
  let (n, l) := t in
  (String.eqb n (sel_name sel)
   && match sel_class sel with
      | None => true
      | Some c => class_matches c l
      end
   && match sel_attr sel with
      | None => true
      | Some (k, v) =>
          match lookup k l with
          | Some v' => String.eqb v' v
          | None => false
          end
      end)%bool.

(** The elements below a node in document order, each with the start
    tags seen before it. *)
Fixpoint walk (prev : list start_tag) (n : node) : list Tag * list start_tag :=
  match n with
  | Text _ => ([], prev)
  | Element nm l kids =>
      let fix forest (p : list start_tag) (ks : list node) :=
        match ks with
        | [] => ([], p)
        | k :: ks' =>
            let (ts, p1) := walk p k in
            let (ts', p2) := forest p1 ks' in
            ((ts ++ ts')%list, p2)
        end in
      let (ts, p') := forest ((nm, l) :: prev) kids in
      (mkTag nm l kids prev :: ts, p')
  end.

Fixpoint walk_all (prev : list start_tag) (ks : list node)
  : list Tag * list start_tag :=
  match ks with
  | [] => ([], prev)
  | k :: ks' =>
      let (ts, p1) := walk prev k in
      let (ts', p2) := walk_all p1 ks' in
      ((ts ++ ts')%list, p2)
  end.

Definition descendants (t : Tag) : list Tag :=
  fst (walk_all ((name t, attrs t) :: previous t) (contents t)).

(** [tag.find_all(name, ...)] *)
Definition find_all (t : Tag) (sel : selector) : list Tag :=
  filter (fun d => matches sel (name d, attrs d)) (descendants t).

(** [tag.find(name, ...)] *)
Definition find (t : Tag) (sel : selector) : option Tag :=
  hd_error (find_all t sel).

(** [tag.find_previous(name, ...)]; the crawler only reads an
    attribute of the result. *)
Definition find_previous (t : Tag) (sel : selector) : option start_tag :=
  List.find (matches sel) (previous t).

Fixpoint strings (n : node) : list string :=
  match n with
  | Text s => [s]
  | Element _ _ kids => flat_map strings kids
  end.

(** [tag.get_text(strip=True)] *)
Definition get_text_strip (t : Tag) : string :=
  String.concat ""
    (filter Str.nonempty (map Str.strip (flat_map strings (contents t)))).

(** The [BeautifulSoup] object over the top-level nodes of a document. *)
Definition soup (nodes : list node) : Tag := mkTag "[document]" [] nodes [].

End Bs4.

(** ** The regular expressions of the module *)

Module Re.

Fixpoint span (p : ascii -> bool) (s : string) : string * string :=
  match s with
  | EmptyString => (EmptyString, EmptyString)
  | String c r =>
      if p c then let (a, b) := span p r in (String c a, b)
      else (EmptyString, s)
  end.

Fixpoint strip_prefix (pre s : string) : option string :=
  match pre, s with
  | EmptyString, _ => Some s
  | String a pre', String b s' =>
      if Ascii.eqb a b then strip_prefix pre' s' else None
  | String _ _, EmptyString => None
  end.

(** [\s+]: what follows a non-empty run of whitespace. *)
Definition spaces1 (s : string) : option string :=
  match s with
  | String c r => if Str.isspace c then Some (Str.lstrip_by Str.isspace r) else None
  | EmptyString => None
  end.

(** After a first digit, the longest continuation of the group
    [\d+(?:,\d+)* ]. *)
Fixpoint group_tail (s : string) : string * string :=
  match s with
  | EmptyString => (EmptyString, EmptyString)
  | String c r =>
      if Str.isdigit c then
        let (m, rest) := group_tail r in (String c m, rest)
      else if Ascii.eqb c ","%char then
        match r with
        | String d _ =>
            if Str.isdigit d then
              let (m, rest) := group_tail r in (String c m, rest)
            else (EmptyString, s)
        | EmptyString => (EmptyString, s)
        end
      else (EmptyString, s)
  end.

(** [re.match] of the pattern [(\d+(?:,\d+)* )\s+stars?\s+today]
    (written here with one extra blank), group 1.  A shorter group always ends in front of a digit or a comma, where
    [\s+] cannot match, so only the longest group has to be tried;
    the same holds for [\s+] and for the optional [s]. *)
Definition stars_today_here (s : string) : option string :=
  match s with
  | String c r =>
      if Str.isdigit c then
        let (m, rest) := group_tail r in
        match spaces1 rest with
        | None => None
        | Some r1 =>
            match strip_prefix "star" r1 with
            | None => None
            | Some r2 =>
                let r3 := match r2 with
                          | String "s"%char r' => r'
                          | _ => r2
                          end in
                match spaces1 r3 with
                | None => None
                | Some r4 =>
                    match strip_prefix "today" r4 with
                    | Some _ => Some (String c m)
                    | None => None
                    end
                end
            end
        end
      else None
  | EmptyString => None
  end.

(** [re.search] of the same pattern: group 1 of the leftmost match. *)
Fixpoint stars_today_search (s : string) : option string :=
  match stars_today_here s with
  | Some g => Some g
  | None =>
      match s with
      | String _ r => stars_today_search r
      | EmptyString => None
      end
  end.

Fixpoint last_char (s : string) : option ascii :=
  match s with
  | EmptyString => None
  | String c EmptyString => Some c
  | String _ r => last_char r
  end.

(** [re.match(r'background-color:\s*([^;]+)', s)], group 1.  When
    nothing but [;] or the end follows the whitespace, [\s*] gives
    its last character back to the group. *)
Definition background_color_here (s : string) : option string :=
  match strip_prefix "background-color:" s with
  | None => None
  | Some r =>
      let (ws, r1) := span Str.isspace r in
      let (g, _) := span (fun c => negb (Ascii.eqb c ";"%char)) r1 in
      match g with
      | String _ _ => Some g
      | EmptyString =>
          match last_char ws with
          | Some c => Some (String c EmptyString)
          | None => None
          end
      end
  end.

(** [re.search(r'background-color:\s*([^;]+)', s)], group 1 of the
    leftmost match. *)
Fixpoint background_color_search (s : string) : option string :=
  match background_color_here s with
  | Some g => Some g
  | None =>
      match s with
      | String _ r => background_color_search r
      | EmptyString => None
      end
  end.

End Re.

(** ** Records and configuration *)

(** [app.schemas.trending.TrendingRepository] *)
Record TrendingRepository : Type := mkTrendingRepository {
  name : string;
  url : string;
  description : option string;
  stars : Z;
  forks : Z;
  language : option string;
  language_color : option string;
  stars_today : Z;
  period_stars : Z;
  owner : string;
  repo_name : string;
  avatar_url : option string;
  crawled_at : Z
}.

(** The fields of [app.config.Settings] the crawler reads. *)
Record Settings : Type := mkSettings {
  github_base_url : string;
  github_trending_url : string;
  request_timeout : Z;
  max_retries : Z;
  request_delay : spec_float;
  min_delay : spec_float;
  max_delay : spec_float
}.

(** What the crawler obtains from libraries and from the outside world.
    The statements below hold for every such platform. *)
Record Platform : Type := mkPlatform {
  (** [urllib.parse.urljoin(base, ref)] *)
  urljoin : string -> string -> outcome string;
  (** pydantic's check of an [HttpUrl] field: the accepted address, or
      [None] when validation fails *)
  HttpUrl : string -> option string;
  (** [BeautifulSoup(html, 'html.parser')]: the tree it builds, or the
      exception it raises on markup the parser rejects *)
  html_parser : string -> outcome (list Bs4.node);
  (** [datetime.now()] while the [i]-th list entry is processed *)
  now : nat -> Z
}.

Section Extractor.

Variable settings : Settings.
Variable platform : Platform.

Let base_url := github_base_url settings.

(** The constructor call [TrendingRepository(...)]: pydantic validates
    [url] and [avatar_url] and raises [ValidationError] otherwise. *)
Definition TrendingRepository_init
           (name url : string) (description : option string)
           (stars forks : Z) (language language_color : option string)
           (stars_today period_stars : Z) (owner repo_name : string)
           (avatar_url : option string) (crawled_at : Z)
  : outcome TrendingRepository :=
  match HttpUrl platform url with
  | None => Raise (ValidationError "url")
  | Some u =>
      match avatar_url with
      | None =>
          Ret (mkTrendingRepository name u description stars forks language
                 language_color stars_today period_stars owner repo_name
                 None crawled_at)
      | Some a =>
          match HttpUrl platform a with
          | None => Raise (ValidationError "avatar_url")
          | Some a' =>
              Ret (mkTrendingRepository name u description stars forks
                     language language_color stars_today period_stars owner
                     repo_name (Some a') crawled_at)
          end
      end
  end.

(** The body of the loop of [_parse_stats], then the loop. *)
Fixpoint _parse_stats_loop (stat_links : list Bs4.Tag) (stars forks : Z)
  : outcome (Z * Z) :=
  match stat_links with
  | [] => Ret (stars, forks)
  | link :: rest =>
      let href := Bs4.get_default link "href" "" in
      let text := Bs4.get_text_strip link in
      if Str.contains "/stargazers" href then
        (stars' <- _parse_number text ;; _parse_stats_loop rest stars' forks)%outcome
      else if Str.contains "/forks" href then
        (forks' <- _parse_number text ;; _parse_stats_loop rest stars forks')%outcome
      else _parse_stats_loop rest stars forks
  end.

(** [GitHubTrendingCrawler._parse_stats] *)
Definition _parse_stats (article : Bs4.Tag) : outcome (Z * Z) :=
  let stars := 0 in
  let forks := 0 in
  let stat_links := Bs4.find_all article (Bs4.by_class "a" "Link--muted") in
  _parse_stats_loop stat_links stars forks.

(** [GitHubTrendingCrawler._parse_stars_today] *)
Definition _parse_stars_today (article : Bs4.Tag) : outcome Z :=
  match Bs4.find article (Bs4.by_class "span" "d-inline-block float-sm-right") with
  | Some star_element =>
      let text := Bs4.get_text_strip star_element in
      match Re.stars_today_search text with
      | Some group1 => _parse_number group1
      | None => Ret 0
      end
  | None => Ret 0
  end.

(** [GitHubTrendingCrawler._parse_avatar_url] *)
Definition _parse_avatar_url (article : Bs4.Tag) : outcome (option string) :=
  match Bs4.find article (Bs4.by_class "img" "avatar") with
  | Some img_element =>
      match Bs4.get img_element "src" with
      | Some src =>
          if Str.nonempty src
          then (u <- urljoin platform base_url src ;; Ret (Some u))%outcome
          else Ret None
      | None => Ret None
      end
  | None => Ret None
  end.

(** The language tag and its colour, as [_parse_single_repository]
    reads them. *)
Definition parse_language (article : Bs4.Tag) : option string * option string :=
  match Bs4.find article (Bs4.by_attr "span" "itemprop" "programmingLanguage") with
  | Some lang_element =>
      let language := Bs4.get_text_strip lang_element in
      let language_color :=
        match Bs4.find_previous lang_element
                (Bs4.by_class "span" "repo-language-color") with
        | Some (_, color_attrs) =>
            let style := match Bs4.lookup "style" color_attrs with
                         | Some v => v
                         | None => ""
                         end in
            match Re.background_color_search style with
            | Some group1 => Some (Str.strip group1)
            | None => None
            end
        | None => None
        end in
      (Some language, language_color)
  | None => (None, None)
  end.

(** [GitHubTrendingCrawler._parse_single_repository]; [clock] is the
    value [datetime.now()] returns. *)
Definition _parse_single_repository (clock : Z) (article : Bs4.Tag)
  : outcome (option TrendingRepository) :=
  try_except
    (match Bs4.find article (Bs4.by_class "h2" "h3 lh-condensed") with
     | None => Ret None
     | Some title_element =>
         match Bs4.find title_element (Bs4.by_name "a") with
         | None => Ret None
         | Some link_element =>
             let repo_path := Str.strip (Bs4.get_default link_element "href" "") in
             if negb (Str.nonempty repo_path) then Ret None
             else
               (repo_url <- urljoin platform base_url repo_path ;;
                let repo_name := Str.strip_char "/"%char repo_path in
                let parts := Str.split "/"%char repo_name in
                match parts with
                | [owner; repo_short_name] =>
                    let description :=
                      option_map Bs4.get_text_strip
                                 (Bs4.find article (Bs4.by_class "p" "col-9")) in
                    let '(language, language_color) := parse_language article in
                    ' (stars, forks) <- _parse_stats article ;;
                    stars_today <- _parse_stars_today article ;;
                    avatar_url <- _parse_avatar_url article ;;
                    r <- TrendingRepository_init repo_name repo_url description
                           stars forks language language_color
                           stars_today stars_today
                           owner repo_short_name avatar_url clock ;;
                    Ret (Some r)
                | _ => Ret None
                end)%outcome
         end
     end)
    is_Exception
    (fun _ => Ret None).

(** The [for article in repo_articles] loop of [_parse_repositories];
    [i] counts the entries already visited. *)
Fixpoint articles_loop (i : nat) (repo_articles : list Bs4.Tag)
         (repositories : list TrendingRepository)
  : outcome (list TrendingRepository) :=
  match repo_articles with
  | [] => Ret repositories
  | article :: rest =>
      (repositories' <-
         try_except
           (repo_data <- _parse_single_repository (now platform i) article ;;
            match repo_data with
            | Some r => Ret (repositories ++ [r])%list
            | None => Ret repositories
            end)
           is_Exception
           (fun _ => Ret repositories) ;;
       articles_loop (S i) rest repositories')%outcome
  end.

(** [GitHubTrendingCrawler._parse_repositories] *)
Definition _parse_repositories (html_content : string)
  : outcome (list TrendingRepository) :=
  (nodes <- html_parser platform html_content ;;
   let soup := Bs4.soup nodes in
   let repositories := [] in
   let repo_articles := Bs4.find_all soup (Bs4.by_class "article" "Box-row") in
   match repo_articles with
   | [] => Ret repositories
   | _ => articles_loop 0 repo_articles repositories
   end)%outcome.

End Extractor.

(** ** Effects of a fetch *)

(** The outcome of one [session.get]: a response, or the exception the
    transport raised (connection failure, timeout, undecodable body). *)
Inductive http_result : Type :=
| Response (status : Z) (text : string) (headers : list (string * string))
| TransportFailure (e : exn).

(** The outside world as seen by one crawler call: the result of the
    [n]-th request, the [n]-th value of [random.random()], and the
    [n]-th index drawn by [random.choice]. *)
Record Network : Type := mkNetwork {
  http : nat -> string -> http_result;
  random_unit : nat -> spec_float;
  random_index : nat -> nat
}.

Inductive event : Type :=
| Sleep (seconds : spec_float)
| Get (url : string) (user_agent : option string).

(** The state a call threads: how many requests and random draws it
    has made, and what it did, oldest event first. *)
Record world : Type := mkWorld {
  requests : nat;
  draws : nat;
  trace : list event
}.

Definition M (A : Type) : Type := world -> outcome A * world.

Definition mret {A} (a : A) : M A := fun w => (Ret a, w).

Definition mraise {A} (e : exn) : M A := fun w => (Raise e, w).

Definition lift {A} (o : outcome A) : M A := fun w => (o, w).

Definition mbind {A B} (c : M A) (k : A -> M B) : M B :=
  fun w =>
    match c w with
    | (Ret a, w') => k a w'
    | (Raise e, w') => (Raise e, w')
    end.

Definition mtry {A} (body : M A) (catches : exn -> bool) (handler : exn -> M A)
  : M A :=
  fun w =>
    match body w with
    | (Ret a, w') => (Ret a, w')
    | (Raise e, w') => if catches e then handler e w' else (Raise e, w')
    end.

Declare Scope crawl_scope.
Delimit Scope crawl_scope with crawl.
Notation "x <- c ;; k" := (mbind c (fun x => k))
  (at level 61, c at next level, right associativity) : crawl_scope.
Notation "c ;; k" := (mbind c (fun _ => k))
  (at level 61, right associativity) : crawl_scope.

(** Values stored in the dictionary [health_check] returns. *)
Inductive pyvalue : Type :=
| PyStr (s : string)
| PyBool (b : bool)
| PyNone.

Definition dict : Type := list (string * pyvalue).

Fixpoint dict_get (d : dict) (key : string) : option pyvalue :=
  match d with
  | [] => None
  | (k, v) :: r => if String.eqb k key then Some v else dict_get r key
  end.

Section Crawler.

Variable settings : Settings.
Variable platform : Platform.
Variable network : Network.

Let base_url := github_base_url settings.
Let trending_url := github_trending_url settings.

Definition user_agents : list string :=
  [ "Mozilla/5.0 (Macintosh; Intel Mac OS X 10_15_7) AppleWebKit/537.36 (KHTML, like Gecko) Chrome/120.0.0.0 Safari/537.36";
    "Mozilla/5.0 (Windows NT 10.0; Win64; x64) AppleWebKit/537.36 (KHTML, like Gecko) Chrome/120.0.0.0 Safari/537.36";
    "Mozilla/5.0 (Macintosh; Intel Mac OS X 10_15_7) AppleWebKit/605.1.15 (KHTML, like Gecko) Version/17.1 Safari/605.1.15";
    "Mozilla/5.0 (Windows NT 10.0; Win64; x64; rv:109.0) Gecko/20100101 Firefox/121.0";
    "Mozilla/5.0 (X11; Linux x86_64) AppleWebKit/537.36 (KHTML, like Gecko) Chrome/120.0.0.0 Safari/537.36" ].

(** [random.random()] *)
Definition random_random : M spec_float :=
  fun w => (Ret (random_unit network (draws w)),
            mkWorld (requests w) (S (draws w)) (trace w)).

(** [random.uniform(a, b)], that is [a + (b - a) * random()] *)
Definition random_uniform (a b : spec_float) : M spec_float :=
  (u <- random_random ;;
   mret (SFadd Float.prec Float.emax a
           (SFmul Float.prec Float.emax (SFsub Float.prec Float.emax b a) u)))%crawl.

(** [random.choice(seq)] for a non-empty [seq] *)
Definition random_choice (seq : list string) : M string :=
  fun w => (Ret (nth (random_index network (draws w) mod List.length seq)%nat
                     seq ""),
            mkWorld (requests w) (S (draws w)) (trace w)).

(** [await asyncio.sleep(seconds)] *)
Definition asyncio_sleep (seconds : spec_float) : M unit :=
  fun w => (Ret tt,
            mkWorld (requests w) (draws w) (trace w ++ [Sleep seconds])).

(** [response.headers.get(key)]: the names in the [CIMultiDict] of an
    aiohttp response are compared without regard to case. *)
Fixpoint headers_get (key : string) (headers : list (string * string))
  : option string :=
  match headers with
  | [] => None
  | (k, v) :: rest =>
      if String.eqb (Str.lower k) (Str.lower key) then Some v
      else headers_get key rest
  end.

(** [session.get(url, headers=...)] *)
Definition session_get (url : string) (user_agent : option string)
  : M (Z * string * list (string * string)) :=
  fun w =>
    let w' := mkWorld (S (requests w)) (draws w)
                      (trace w ++ [Get url user_agent]) in
    match http network (requests w) url with
    | Response status text headers => (Ret (status, text, headers), w')
    | TransportFailure e => (Raise e, w')
    end.

(** [GitHubTrendingCrawler._build_url] *)
Definition _build_url (language : option string) (since : string) : string :=
  let url := trending_url in
  let url := match language with
             | Some l => if Str.nonempty l then url ++ "/" ++ Str.lower l else url
             | None => url
             end in
  url ++ "?since=" ++ since.

(** [GitHubTrendingCrawler._fetch_page] *)
Definition _fetch_page (url : string) : M string :=
  (user_agent <- random_choice user_agents ;;
   delay <- random_uniform (min_delay settings) (max_delay settings) ;;
   asyncio_sleep delay ;;
   response <- session_get url (Some user_agent) ;;
   let '(status, text, _) := response in
   if negb (status =? 200)
   then mraise (Exception_ ("HTTP " ++ Str.of_Z status ++ ": " ++ text))
   else mret text)%crawl.

(** [repositories[:limit]] *)
Definition slice_to {A} (l : list A) (limit : Z) : list A :=
  if 0 <=? limit then firstn (Z.to_nat limit) l
  else firstn (Z.to_nat (Z.of_nat (List.length l) + limit)) l.

Definition half : spec_float := S754_finite false 4503599627370496 (-53).
Definition one_and_half : spec_float := S754_finite false 6755399441055744 (-52).

(** One pass through the body of the [for attempt in range(...)] loop
    of [fetch_trending]: [Some l] when it returns [l], [None] when the
    loop goes on. *)
Definition attempt_body (url : string) (limit : Z) (attempt : Z)
  : M (option (list TrendingRepository)) :=
  mtry
    (html_content <- _fetch_page url ;;
     repositories <- lift (_parse_repositories settings platform html_content) ;;
     let repositories :=
       if (negb (limit =? 0) && (limit <? Z.of_nat (List.length repositories)))%bool
       then slice_to repositories limit
       else repositories in
     mret (Some repositories))%crawl
    is_Exception
    (fun e =>
       if attempt <? max_retries settings - 1 then
         (base_delay <- lift (Float.mul_int (request_delay settings) (2 ^ attempt)) ;;
          jitter <- random_uniform half one_and_half ;;
          let retry_delay := SFmul Float.prec Float.emax base_delay jitter in
          asyncio_sleep retry_delay ;;
          mret None)%crawl
       else mraise e).

Fixpoint attempts_loop (url : string) (limit : Z) (remaining : nat) (attempt : Z)
  : M (list TrendingRepository) :=
  match remaining with
  | O => mret []
  | S remaining' =>
      (r <- attempt_body url limit attempt ;;
       match r with
       | Some repositories => mret repositories
       | None => attempts_loop url limit remaining' (attempt + 1)
       end)%crawl
  end.

(** [GitHubTrendingCrawler.fetch_trending] *)
Definition fetch_trending (language : option string) (since : string) (limit : Z)
  : M (list TrendingRepository) :=
  let url := _build_url language since in
  attempts_loop url limit (Z.to_nat (max_retries settings)) 0.

(** [GitHubTrendingCrawler.health_check] *)
Definition health_check : M dict :=
  mtry
    (response <- session_get base_url None ;;
     let '(status, _, headers) := response in
     if status =? 200 then
       mret [ ("status", PyStr "healthy");
              ("github_accessible", PyBool true);
              ("response_time",
               match headers_get "X-Response-Time" headers with
               | Some v => PyStr v
               | None => PyNone
               end) ]
     else
       mret [ ("status", PyStr "unhealthy");
              ("github_accessible", PyBool false);
              ("error", PyStr ("HTTP " ++ Str.of_Z status)) ])%crawl
    is_Exception
    (fun e =>
       mret [ ("status", PyStr "unhealthy");
              ("github_accessible", PyBool false);
              ("error", PyStr (str_exn e)) ]).

End Crawler.

(** * Notions used in the statements *)

(** ** The reference definition of the number/unit parser *)

(** The contract of the parser in the words of the specification:
    strip the thousands separators, recognise a trailing [k] or [m] in
    either case, read what remains as a number, scale it, and cut the
    fraction off; anything that cannot be read counts as 0. *)
Module Reference.

Definition strip_separators (text : string) : string :=
  Str.remove ","%char text.

Definition unit_suffix (text : string) : Z * string :=
  if (Str.endswith text "k" || Str.endswith text "K")%bool
  then (1000, Str.drop_last text)
  else if (Str.endswith text "m" || Str.endswith text "M")%bool
  then (1000000, Str.drop_last text)
  else (1, text).

(** The scaled number, [None] when the text is not a number. *)
Definition scaled_value (text : string) : option spec_float :=
  let '(multiplier, body) := unit_suffix (strip_separators text) in
  match Float.parse_tokens (Float.tokens body) with
  | None => None
  | Some x =>
      Some (SFmul Float.prec Float.emax x
              (binary_normalize Float.prec Float.emax multiplier 0 false))
  end.

(** Truncation towards zero; values without an integer part give 0. *)
Definition truncate (x : spec_float) : Z :=
  match x with
  | S754_finite s m e =>
      let v := if 0 <=? e then Zpos m * 2 ^ e else Zpos m / 2 ^ (- e) in
      if s then - v else v
  | _ => 0
  end.

Definition parse (text : string) : Z :=
  match scaled_value text with
  | Some x => truncate x
  | None => 0
  end.

(** The scaled number is infinite. *)
Definition overflows (text : string) : bool :=
  match scaled_value text with
  | Some (S754_infinity _) => true
  | _ => false
  end.

End Reference.

(** ** Entries, counters and attempts *)

Fixpoint mem_char (x : ascii) (s : string) : bool :=
  match s with
  | EmptyString => false
  | String c r => (Ascii.eqb c x || mem_char x r)%bool
  end.

Definition starts_with (x : ascii) (s : string) : bool :=
  match s with
  | String c _ => Ascii.eqb c x
  | EmptyString => false
  end.

(** The title link of an entry: the stripped [href] of the first link
    inside its heading. *)
Definition title_path (article : Bs4.Tag) : option string :=
  match Bs4.find article (Bs4.by_class "h2" "h3 lh-condensed") with
  | None => None
  | Some title_element =>
      match Bs4.find title_element (Bs4.by_name "a") with
      | None => None
      | Some link_element =>
          Some (Str.strip (Bs4.get_default link_element "href" ""))
      end
  end.

Fixpoint last_opt {A} (l : list A) : option A :=
  match l with
  | [] => None
  | [a] => Some a
  | _ :: r => last_opt r
  end.

Definition link_href (link : Bs4.Tag) : string := Bs4.get_default link "href" "".

Definition stat_links_of (article : Bs4.Tag) : list Bs4.Tag :=
  Bs4.find_all article (Bs4.by_class "a" "Link--muted").

(** The texts of the links [_parse_stats] reads the star count from,
    and of those it reads the fork count from. *)
Definition stargazers_texts (stat_links : list Bs4.Tag) : list string :=
  map Bs4.get_text_strip
      (filter (fun link => Str.contains "/stargazers" (link_href link)) stat_links).

Definition forks_texts (stat_links : list Bs4.Tag) : list string :=
  map Bs4.get_text_strip
      (filter (fun link => (negb (Str.contains "/stargazers" (link_href link))
                            && Str.contains "/forks" (link_href link))%bool)
              stat_links).

(** A counter holds the reading of the last text, or its initial value
    when there is no text. *)
Definition reads_last (texts : list string) (initial value : Z) : Prop :=
  match last_opt texts with
  | None => value = initial
  | Some text => _parse_number text = Ret value
  end.

(** Why a request counts as failed: the transport raised, or the
    status is not 200. *)
Definition failure_of (r : http_result) : option exn :=
  match r with
  | TransportFailure e => Some e
  | Response status text _ =>
      if status =? 200 then None
      else Some (Exception_ ("HTTP " ++ Str.of_Z status ++ ": " ++ text))
  end.

(** [repositories[:limit]] under the guard of [fetch_trending]. *)
Definition limited (limit : Z) (repositories : list TrendingRepository)
  : list TrendingRepository :=
  if (negb (limit =? 0) && (limit <? Z.of_nat (List.length repositories)))%bool
  then slice_to repositories limit
  else repositories.

(** The request of an attempt was answered with status 200, but the
    parser rejected the page: the exception of the parser. *)
Definition rejection_of (platform : Platform) (r : http_result) : option exn :=
  match r with
  | Response status text _ =>
      if status =? 200 then
        match html_parser platform text with
        | Raise e => Some e
        | Ret _ => None
        end
      else None
  | TransportFailure _ => None
  end.

(** Why an attempt counts as failed: its request failed, or the parser
    rejected the page it brought. *)
Definition attempt_error (platform : Platform) (r : http_result) : option exn :=
  match failure_of r with
  | Some e => Some e
  | None => rejection_of platform r
  end.

(** ** Well-formed entries, in the words of the specification *)






(** The text the counter of new stars is read from: what the pattern
    captures in the counter element, if there is such an element and
    the pattern matches. *)
Definition period_texts (article : Bs4.Tag) : list string :=
  match Bs4.find article (Bs4.by_class "span" "d-inline-block float-sm-right") with
  | Some star_element =>
      match Re.stars_today_search (Bs4.get_text_strip star_element) with
      | Some group1 => [group1]
      | None => []
      end
  | None => []
  end.


Section Derived.

Variable settings : Settings.
Variable platform : Platform.
Variable network : Network.

(** The entries of a page: its [article] elements of class [Box-row],
    in document order.  A page the parser rejects has none. *)
Definition entries (html_content : string) : list Bs4.Tag :=
  match html_parser platform html_content with
  | Ret nodes =>
      Bs4.find_all (Bs4.soup nodes) (Bs4.by_class "article" "Box-row")
  | Raise _ => []
  end.

(** [_parse_single_repository] returns a record for the entry at
    position [i]. *)
Definition yields_record (i : nat) (article : Bs4.Tag) : bool :=
  match _parse_single_repository settings platform (now platform i) article with
  | Ret (Some _) => true
  | _ => false
  end.

(** The records [_parse_single_repository] returns for [articles],
    whose first element has position [i], in the order of the
    entries. *)
Fixpoint records_from (i : nat) (articles : list Bs4.Tag) : list TrendingRepository :=
  match articles with
  | [] => []
  | article :: rest =>
      match _parse_single_repository settings platform (now platform i) article with
      | Ret (Some r) => r :: records_from (S i) rest
      | _ => records_from (S i) rest
      end
  end.

(** How many of the entries yield a record ([wf = true]) or none
    ([wf = false]). *)
Fixpoint count_entries (wf : bool) (i : nat) (articles : list Bs4.Tag) : nat :=
  match articles with
  | [] => O
  | article :: rest =>
      ((if Bool.eqb (yields_record i article) wf then 1 else 0)
       + count_entries wf (S i) rest)%nat
  end.

(** The user agent picked with the [d]-th draw. *)
Definition chosen_agent (d : nat) : string :=
  nth (random_index network d mod List.length user_agents)%nat user_agents "".

(** [random.uniform(a, b)] computed from the [d]-th draw. *)
Definition uniform_value (a b : spec_float) (d : nat) : spec_float :=
  SFadd Float.prec Float.emax a
    (SFmul Float.prec Float.emax (SFsub Float.prec Float.emax b a)
       (random_unit network d)).

(** The world after [_fetch_page]: two draws, the pacing sleep, the
    request. *)
Definition after_fetch (url : string) (w : world) : world :=
  mkWorld (S (requests w)) (S (S (draws w)))
          (trace w ++ [Sleep (uniform_value (min_delay settings) (max_delay settings)
                                            (S (draws w)));
                       Get url (Some (chosen_agent (draws w)))]).

(** [self.delay * (2 ** attempt)] *)
Definition base_delay (attempt : Z) : spec_float :=
  SFmul Float.prec Float.emax (request_delay settings)
        (binary_normalize Float.prec Float.emax (2 ^ attempt) 0 false).

(** The world after the backoff that follows a failed attempt: one
    more draw for the jitter and the sleep of
    [base_delay * jitter]. *)
Definition after_backoff (attempt : Z) (w : world) : world :=
  mkWorld (requests w) (S (draws w))
          (trace w ++ [Sleep (SFmul Float.prec Float.emax (base_delay attempt)
                                (uniform_value half one_and_half (draws w)))]).

(** The world after [j] failed attempts, each followed by its backoff;
    the first of them has index [attempt]. *)
Fixpoint after_failures (url : string) (j : nat) (attempt : Z) (w : world)
  : world :=
  match j with
  | O => w
  | S j' =>
      after_failures url j' (attempt + 1)
        (after_backoff attempt (after_fetch url w))
  end.

End Derived.

(** ** A concrete platform *)

(** Concrete settings, library behaviour and pages, used to run the
    crawler on examples. *)
Module Demo.

(** The default settings: three attempts, a base delay of 5 seconds,
    pacing between 3 and 8 seconds. *)
Definition five : spec_float := Eval vm_compute in Float.of_decimal false 5 0.
Definition three : spec_float := Eval vm_compute in Float.of_decimal false 3 0.
Definition eight : spec_float := Eval vm_compute in Float.of_decimal false 8 0.

Definition settings : Settings :=
  mkSettings "https://github.com" "https://github.com/trending" 30 3
             five three eight.

(** [urljoin] on a base without path: a rooted path is appended to the
    base, a reference of any other shape is returned as it is (what
    [urljoin] does with an absolute address).  The examples only join
    rooted paths. *)
Definition urljoin (base ref : string) : outcome string :=
  if (String.prefix "/" ref && negb (String.prefix "//" ref))%bool
  then Ret (base ++ ref)
  else Ret ref.

(** [HttpUrl] accepts the addresses that start with an http scheme. *)
Definition HttpUrl (u : string) : option string :=
  if (String.prefix "https://" u || String.prefix "http://" u)%bool
  then Some u
  else None.

(** One entry of a trending page with its title link and, optionally,
    the text of its star counter. *)
Definition entry_html (path : string) (stars_text : option string) : string :=
  "<article class='Box-row'><h2 class='h3 lh-condensed'><a href='" ++ path
  ++ "'>repo</a></h2>"
  ++ match stars_text with
     | Some t => "<a class='Link--muted' href='" ++ path ++ "/stargazers'>"
                 ++ t ++ "</a>"
     | None => ""
     end
  ++ "</article>".

Definition entry_tree (path : string) (stars_text : option string) : Bs4.node :=
  Bs4.Element "article" [("class", "Box-row")]
    (Bs4.Element "h2" [("class", "h3 lh-condensed")]
       [Bs4.Element "a" [("href", path)] [Bs4.Text "repo"]]
     :: match stars_text with
        | Some t =>
            [Bs4.Element "a" [("class", "Link--muted");
                              ("href", path ++ "/stargazers")]
               [Bs4.Text t]]
        | None => []
        end).

(** A page is given by the entries it lists. *)
Definition page_html (es : list (string * option string)) : string :=
  String.concat "" (map (fun e => entry_html (fst e) (snd e)) es).

Definition page_tree (es : list (string * option string)) : list Bs4.node :=
  map (fun e => entry_tree (fst e) (snd e)) es.

(** A page whose only entry shows the star counter "-5". *)
Definition negative_page : list (string * option string) :=
  [("/octo/cat", Some "-5")].

(** Twenty entries [/owner/repo0] .. [/owner/repo19]. *)
Definition twenty_page : list (string * option string) :=
  map (fun i => ("/owner/repo" ++ Str.of_Z (Z.of_nat i), None)) (seq 0 20).

(** A page without any entry container. *)
Definition drifted_html : string := "<html><body><p>moved</p></body></html>".

Definition drifted_tree : list Bs4.node :=
  [Bs4.Element "html" []
     [Bs4.Element "body" [] [Bs4.Element "p" [] [Bs4.Text "moved"]]]].

(** Markup the parser rejects: on the marked section [<![x]>]
    [html.parser] raises [AssertionError], which [BeautifulSoup] hands
    on as [ParserRejectedMarkup]. *)
Definition rejected_html : string := "<![x]>".


(** An entry whose avatar is an inline image: [urljoin] returns such a
    source as it is, and it is no http address. *)
Definition inline_avatar_html : string :=
  "<article class='Box-row'><h2 class='h3 lh-condensed'><a href='/octo/cat'>repo</a></h2><img class='avatar' src='data:image/png;base64,AAAA'></article>".

Definition inline_avatar_tree : list Bs4.node :=
  [Bs4.Element "article" [("class", "Box-row")]
     [Bs4.Element "h2" [("class", "h3 lh-condensed")]
        [Bs4.Element "a" [("href", "/octo/cat")] [Bs4.Text "repo"]];
      Bs4.Element "img" [("class", "avatar");
                         ("src", "data:image/png;base64,AAAA")] []]].

(** The parser on the pages above. *)
Definition html_parser (html_content : string) : outcome (list Bs4.node) :=
  if String.prefix rejected_html html_content
  then Raise (ParserRejectedMarkup
                "AssertionError: unknown status keyword 'x' in marked section")
  else if String.eqb html_content (page_html negative_page)
  then Ret (page_tree negative_page)
  else if String.eqb html_content (page_html twenty_page)
  then Ret (page_tree twenty_page)
  else if String.eqb html_content drifted_html then Ret drifted_tree
  else if String.eqb html_content inline_avatar_html then Ret inline_avatar_tree
  else Ret [].

Definition platform : Platform :=
  mkPlatform urljoin HttpUrl html_parser (fun i => Z.of_nat i).

(** Settings without any waiting: [k] attempts, a base delay and a
    pacing interval of 0 seconds. *)
Definition impatient (k : Z) : Settings :=
  mkSettings "https://github.com" "https://github.com/trending" 30 k
             (S754_zero false) (S754_zero false) (S754_zero false).

(** A network on which the first [failures] requests are refused and
    every later one is answered with [page]. *)
Definition network (failures : nat) (page : string) : Network :=
  mkNetwork
    (fun n _ => if (n <? failures)%nat
                then TransportFailure (ClientError "connection refused")
                else Response 200 page [])
    (fun _ => half)
    (fun _ => O).

Definition start : world := mkWorld 0 0 [].

End Demo.

(** * The rest of the crawler's surroundings *)

(** ** [app/config.py] *)

Module Config.

(** [is_development]: [settings.environment.lower() in ["development", "dev"]] *)
Definition is_development (environment : string) : bool :=
  existsb (String.eqb (Str.lower environment)) ["development"; "dev"].

(** [is_production]: [settings.environment.lower() in ["production", "prod"]] *)
Definition is_production (environment : string) : bool :=
  existsb (String.eqb (Str.lower environment)) ["production"; "prod"].

End Config.

(** ** The routes of [app/api/trending.py] *)

Module Api.

(** [app.schemas.trending.TrendingResponse] *)
Record TrendingResponse : Type := mkTrendingResponse {
  success : bool;
  repositories : list TrendingRepository;
  total_count : Z;
  language : option string;
  since : string;
  crawled_at : Z
}.

(** [app.schemas.trending.HealthResponse] *)
Record HealthResponse : Type := mkHealthResponse {
  status : string;
  timestamp : Z;
  version : string;
  uptime : option spec_float
}.

(** [app.schemas.trending.TrendingQuery], the body of a refresh. *)
Record TrendingQuery : Type := mkTrendingQuery {
  query_language : option string;
  query_since : string;
  query_limit : Z
}.

(** What a route hands to the framework: the value it returns, or the
    [HTTPException] it raises. *)
Inductive reply (A : Type) : Type :=
| Returned (a : A)
| HTTPException (status_code : Z) (detail : dict).
Arguments Returned {A} a.
Arguments HTTPException {A} status_code detail.

Definition Route (A : Type) : Type := world -> reply A * world.

(** What the routes read besides the crawler: [settings.app_version],
    the value of [datetime.now()] and its [isoformat()]. *)
Record Runtime : Type := mkRuntime {
  app_version : string;
  datetime_now : Z;
  isoformat : Z -> string
}.

(** [bool(v)] *)
Definition truthy (v : pyvalue) : bool :=
  match v with
  | PyBool b => b
  | PyStr s => Str.nonempty s
  | PyNone => false
  end.

(** The [limit] a route passes on may be [None].  [fetch_trending]
    reads it only in [if limit and len(repositories) > limit], where
    [None] and 0 act alike, so [None] is handed over as 0. *)
Definition limit_argument (limit : option Z) : Z :=
  match limit with
  | Some n => n
  | None => 0
  end.

Section Routes.

Variable settings : Settings.
Variable platform : Platform.
Variable network : Network.
Variable runtime : Runtime.

(** [get_trending] *)
Definition get_trending (language : option string) (since : string)
           (limit : option Z) : Route TrendingResponse :=
  fun w =>
    match fetch_trending settings platform network language since
            (limit_argument limit) w with
    | (Ret repositories, w') =>
        (Returned (mkTrendingResponse true repositories
                     (Z.of_nat (List.length repositories)) language since
                     (datetime_now runtime)),
         w')
    | (Raise e, w') =>
        (HTTPException 500
           [ ("success", PyBool false);
             ("error", PyStr "CRAWL_ERROR");
             ("message", PyStr "Failed to fetch trending data");
             ("detail", PyStr (str_exn e));
             ("timestamp", PyStr (isoformat runtime (datetime_now runtime))) ],
         w')
    end.

(** [refresh_trending] *)
Definition refresh_trending (query : TrendingQuery) : Route TrendingResponse :=
  get_trending (query_language query) (query_since query)
               (Some (query_limit query)).

(** [get_trending_by_language] *)
Definition get_trending_by_language (language : string) (since : string)
           (limit : option Z) : Route TrendingResponse :=
  get_trending (Some language) since limit.

(** The route [health_check] *)
Definition health_route : Route HealthResponse :=
  fun w =>
    match health_check settings network w with
    | (Ret crawler_health, w') =>
        let status :=
          if truthy (match dict_get crawler_health "github_accessible" with
                     | Some v => v
                     | None => PyBool false
                     end)
          then "healthy" else "unhealthy" in
        (Returned (mkHealthResponse status (datetime_now runtime)
                     (app_version runtime) None),
         w')
    | (Raise e, w') =>
        (Returned (mkHealthResponse "unhealthy" (datetime_now runtime)
                     (app_version runtime) None),
         w')
    end.

End Routes.

End Api.

(** ** Notions used in the further statements *)

(** The digits of a counter text read as one decimal number; every
    other character is passed over. *)
Fixpoint decimal_value_from (acc : Z) (s : string) : Z :=
  match s with
  | EmptyString => acc
  | String c r =>
      if Str.isdigit c
      then decimal_value_from (10 * acc + (Z.of_N (Str.code c) - 48)) r
      else decimal_value_from acc r
  end.

Definition decimal_value (s : string) : Z := decimal_value_from 0 s.

(** The values of the digits of a text, in order. *)
Fixpoint counter_digits (s : string) : list Z :=
  match s with
  | EmptyString => []
  | String c r =>
      if Str.isdigit c then (Z.of_N (Str.code c) - 48) :: counter_digits r
      else counter_digits r
  end.

(** A text made of decimal digits and thousands separators only. *)
Fixpoint digits_and_commas (s : string) : bool :=
  match s with
  | EmptyString => true
  | String c r =>
      ((Str.isdigit c || Ascii.eqb c ","%char) && digits_and_commas r)%bool
  end.

(** How many records [fetch_trending] keeps out of [n] under a given
    [limit]. *)
Definition kept (limit : Z) (n : nat) : nat :=
  if limit =? 0 then n
  else if 0 <? limit then Nat.min (Z.to_nat limit) n
  else Z.to_nat (Z.of_nat n + limit).

(** The events of a fetch come in this shape: a request is always
    preceded by its pacing sleep, goes to [url] and carries a user
    agent of the pool; further sleeps are backoffs. *)
Inductive paced (settings : Settings) (network : Network) (url : string)
  : list event -> Prop :=
| paced_nil : paced settings network url []
| paced_backoff (seconds : spec_float) (evs : list event) :
    paced settings network url evs ->
    paced settings network url (Sleep seconds :: evs)
| paced_request (d : nat) (user_agent : string) (evs : list event) :
    In user_agent user_agents ->
    paced settings network url evs ->
    paced settings network url
      (Sleep (uniform_value network (min_delay settings) (max_delay settings) d)
       :: Get url (Some user_agent) :: evs).

Fixpoint count_requests (evs : list event) : nat :=
  match evs with
  | [] => O
  | Get _ _ :: r => S (count_requests r)
  | Sleep _ :: r => count_requests r
  end.

(** The counter of new stars of an entry does not mention "today". *)
Definition no_today (article : Bs4.Tag) : Prop :=
  match Bs4.find article (Bs4.by_class "span" "d-inline-block float-sm-right") with
  | Some star_element =>
      Str.contains "today" (Bs4.get_text_strip star_element) = false
  | None => True
  end.

(** An entry has a stargazers or forks link whose text reads as an
    infinite number. *)
Definition has_overflowing_counter (article : Bs4.Tag) : Prop :=
  exists link,
    In link (stat_links_of article)
    /\ (Str.contains "/stargazers" (link_href link)
        || Str.contains "/forks" (link_href link))%bool = true
    /\ Reference.overflows (Bs4.get_text_strip link) = true.

(** Further examples. *)
Module Demo2.

(** An entry whose star counter reads "inf". *)
Definition overflowing_entry : Bs4.Tag :=
  Bs4.mkTag "article" [("class", "Box-row")]
    [Bs4.Element "h2" [("class", "h3 lh-condensed")]
       [Bs4.Element "a" [("href", "/octo/cat")] [Bs4.Text "repo"]];
     Bs4.Element "a" [("class", "Link--muted"); ("href", "/octo/cat/stargazers")]
       [Bs4.Text "inf"]]
    [].

(** An entry with a language tag, its colour marker and a counter of
    new stars. *)
Definition daily_entry : Bs4.Tag :=
  Bs4.mkTag "article" [("class", "Box-row")]
    [Bs4.Element "h2" [("class", "h3 lh-condensed")]
       [Bs4.Element "a" [("href", "/octo/cat")] [Bs4.Text "repo"]];
     Bs4.Element "span" [("class", "repo-language-color");
                         ("style", "background-color: #3572A5 ;")] [];
     Bs4.Element "span" [("itemprop", "programmingLanguage")]
       [Bs4.Text "Python"];
     Bs4.Element "span" [("class", "d-inline-block float-sm-right")]
       [Bs4.Text " 1,234 stars today "]]
    [].

(** A page as GitHub serves it for a weekly ranking: the counter reads
    "stars this week". *)
Definition weekly_html : string :=
  "<article class='Box-row'><h2 class='h3 lh-condensed'><a href='/octo/cat'>repo</a></h2><span class='d-inline-block float-sm-right'>1,234 stars this week</span></article>".

Definition weekly_tree : list Bs4.node :=
  [Bs4.Element "article" [("class", "Box-row")]
     [Bs4.Element "h2" [("class", "h3 lh-condensed")]
        [Bs4.Element "a" [("href", "/octo/cat")] [Bs4.Text "repo"]];
      Bs4.Element "span" [("class", "d-inline-block float-sm-right")]
        [Bs4.Text "1,234 stars this week"]]].

Definition platform : Platform :=
  mkPlatform Demo.urljoin Demo.HttpUrl
             (fun html_content =>
                if String.eqb html_content weekly_html then Ret weekly_tree
                else Demo.html_parser html_content)
             (fun i => Z.of_nat i).

Definition runtime : Api.Runtime :=
  Api.mkRuntime "1.0.0" 0 (fun _ => "1970-01-01T00:00:00").

End Demo2.

(** * Properties *)

(** ** Characters *)

Ltac each_char c := destruct c as [[] [] [] [] [] [] [] []].

Lemma classify_lower_char (c : ascii) :
  Float.classify (Str.lower_char c) = Float.classify c.
Proof. each_char c; reflexivity. Qed.

Lemma lower_char_is_k (c : ascii) :
  Ascii.eqb (Str.lower_char c) "k" = (Ascii.eqb c "k" || Ascii.eqb c "K")%bool.
Proof. each_char c; reflexivity. Qed.

Lemma lower_char_is_m (c : ascii) :
  Ascii.eqb (Str.lower_char c) "m" = (Ascii.eqb c "m" || Ascii.eqb c "M")%bool.
Proof. each_char c; reflexivity. Qed.

Lemma tokens_lower (s : string) : Float.tokens (Str.lower s) = Float.tokens s.
Proof.
  unfold Float.tokens.
  induction s as [|c s IH]; simpl; [reflexivity|].
  now rewrite classify_lower_char, IH.
Qed.

Lemma drop_last_lower (s : string) :
  Str.drop_last (Str.lower s) = Str.lower (Str.drop_last s).
Proof.
  induction s as [|c s IH]; simpl; [reflexivity|].
  destruct s as [|c' s']; simpl in *; [reflexivity|].
  now rewrite IH.
Qed.

Lemma endswith_lower (s : string) (x : ascii) (f : ascii -> bool) :
  (forall c, Ascii.eqb (Str.lower_char c) x = f c) ->
  Str.endswith (Str.lower s) x
  = (fix ends (t : string) : bool :=
       match t with
       | EmptyString => false
       | String c EmptyString => f c
       | String _ r => ends r
       end) s.
Proof.
  intros Hf.
  induction s as [|c s IH]; simpl; [reflexivity|].
  destruct s as [|c' s']; simpl in *; [apply Hf|exact IH].
Qed.

Lemma endswith_or (s : string) (x y : ascii) :
  (fix ends (t : string) : bool :=
     match t with
     | EmptyString => false
     | String c EmptyString => (Ascii.eqb c x || Ascii.eqb c y)%bool
     | String _ r => ends r
     end) s
  = (Str.endswith s x || Str.endswith s y)%bool.
Proof.
  induction s as [|c s IH]; simpl; [reflexivity|].
  destruct s as [|c' s']; simpl in *; [reflexivity|exact IH].
Qed.

Lemma endswith_lower_k (s : string) :
  Str.endswith (Str.lower s) "k" = (Str.endswith s "k" || Str.endswith s "K")%bool.
Proof.
  rewrite (endswith_lower s "k" _ lower_char_is_k). apply endswith_or.
Qed.

Lemma endswith_lower_m (s : string) :
  Str.endswith (Str.lower s) "m" = (Str.endswith s "m" || Str.endswith s "M")%bool.
Proof.
  rewrite (endswith_lower s "m" _ lower_char_is_m). apply endswith_or.
Qed.

(** ** The number/unit parser against its reference definition *)

Lemma parse_number_unfold (text : string) :
  _parse_number text
  = match Reference.scaled_value text with
    | None => Ret 0
    | Some x =>
        try_except (Float.to_int x) is_ValueError_or_TypeError (fun _ => Ret 0)
    end.
Proof.
  destruct text as [|c text]; [reflexivity|].
  unfold _parse_number, Reference.scaled_value, Reference.unit_suffix,
    Reference.strip_separators.
  cbn [Str.nonempty negb].
  set (t := Str.remove "," (String c text)).
  rewrite endswith_lower_k, endswith_lower_m.
  destruct (Str.endswith t "k" || Str.endswith t "K")%bool.
  - unfold Float.of_string.
    rewrite drop_last_lower, tokens_lower.
    destruct (Float.parse_tokens (Float.tokens (Str.drop_last t))); reflexivity.
  - destruct (Str.endswith t "m" || Str.endswith t "M")%bool.
    + unfold Float.of_string.
      rewrite drop_last_lower, tokens_lower.
      destruct (Float.parse_tokens (Float.tokens (Str.drop_last t))); reflexivity.
    + unfold Float.of_string.
      rewrite tokens_lower.
      destruct (Float.parse_tokens (Float.tokens t)); reflexivity.
Qed.

(** The parser against its reference definition, on every text. *)
Lemma parse_number_cases (text : string) :
  _parse_number text
  = if Reference.overflows text
    then Raise (OverflowError "cannot convert float infinity to integer")
    else Ret (Reference.parse text).
Proof.
  rewrite parse_number_unfold.
  unfold Reference.overflows, Reference.parse.
  destruct (Reference.scaled_value text) as [[s|s| |s m e]|]; reflexivity.
Qed.

(** C1. The number/unit parser departs from its reference definition
    on the texts whose scaled value is infinite, and only there: on
    "1e999" the reference gives 0 and the parser raises
    [OverflowError] from [int].  On every other text the two agree; in
    particular the parser reads "1,234" as 1234, "2.3k" as 2300,
    "1.5m" as 1500000, and the empty text and "abc" as 0, and it cuts
    fractions off instead of rounding. *)
Theorem parse_number_matches_reference :
  (forall text : string,
      _parse_number text
      = if Reference.overflows text
        then Raise (OverflowError "cannot convert float infinity to integer")
        else Ret (Reference.parse text))
  /\ (Reference.overflows "1e999" = true
      /\ Reference.parse "1e999" = 0
      /\ _parse_number "1e999"
         = Raise (OverflowError "cannot convert float infinity to integer"))
  /\ _parse_number "1,234" = Ret 1234
  /\ _parse_number "2.3k" = Ret 2300
  /\ _parse_number "1.5m" = Ret 1500000
  /\ _parse_number "" = Ret 0
  /\ _parse_number "abc" = Ret 0
  /\ _parse_number "2.9" = Ret 2
  /\ _parse_number "1.9999K" = Ret 1999
  /\ _parse_number "-2.9" = Ret (-2).
Proof.
  split; [exact parse_number_cases|].
  repeat split; vm_compute; reflexivity.
Qed.

(** Binary64 shows through: 1.005 is stored just below its decimal
    value, so "1.005k" is read as 1004. *)
Example parse_number_1_005k : _parse_number "1.005k" = Ret 1004.
Proof. vm_compute. reflexivity. Qed.

(** C4. On the text "inf" the parser does not return 0: [float] accepts
    it, [int] raises [OverflowError], and the handler only catches
    [ValueError] and [TypeError]. *)
Theorem parse_number_inf_escapes :
  _parse_number "inf"
  = Raise (OverflowError "cannot convert float infinity to integer")
  /\ _parse_number "1e999"
     = Raise (OverflowError "cannot convert float infinity to integer")
  /\ is_ValueError_or_TypeError
       (OverflowError "cannot convert float infinity to integer") = false.
Proof. repeat split; vm_compute; reflexivity. Qed.

(** ** Signs *)

(** A negative result needs a minus sign in the text. *)

Lemma truncation_nonneg (m : positive) (e : Z) :
  0 <= (if 0 <=? e then Zpos m * 2 ^ e else Zpos m / 2 ^ (- e)).
Proof.
  destruct (0 <=? e) eqn:He.
  - apply Z.mul_nonneg_nonneg; [lia|]. apply Z.pow_nonneg. lia.
  - apply Z.div_pos; [lia|]. apply Z.pow_pos_nonneg; lia.
Qed.

Lemma to_int_negative (x : spec_float) (n : Z) :
  Float.to_int x = Ret n -> n < 0 -> exists m e, x = S754_finite true m e.
Proof.
  destruct x as [s|s| |s m e]; unfold Float.to_int; intros H Hn; try discriminate.
  - injection H as <-. lia.
  - destruct s; [now eauto|].
    injection H as H. subst n. exfalso.
    apply (Z.lt_irrefl 0).
    eapply Z.le_lt_trans; [apply (truncation_nonneg m e)|exact Hn].
Qed.

Lemma binary_round_aux_sign (s : bool) (m e : Z) (l : location) (s' : bool)
      (m' : positive) (e' : Z) :
  binary_round_aux Float.prec Float.emax s m e l = S754_finite s' m' e' -> s' = s.
Proof.
  unfold binary_round_aux.
  destruct (shr_fexp Float.prec Float.emax m e l) as [mrs e1].
  destruct (shr_fexp Float.prec Float.emax _ e1 loc_Exact) as [mrs2 e2].
  destruct (shr_m mrs2); try discriminate.
  destruct (e2 <=? Float.emax - Float.prec); try discriminate.
  now intros [= <- _ _].
Qed.

Lemma SFmul_sign (x : spec_float) (my : positive) (ey : Z) (m : positive) (e : Z) :
  SFmul Float.prec Float.emax x (S754_finite false my ey) = S754_finite true m e ->
  exists mx ex, x = S754_finite true mx ex.
Proof.
  destruct x as [s|s| |s mx ex]; simpl; try discriminate.
  intros H. apply binary_round_aux_sign in H.
  destruct s; [now eauto|discriminate].
Qed.

Lemma of_decimal_sign (neg : bool) (m e : Z) (m' : positive) (e' : Z) :
  Float.of_decimal neg m e = S754_finite true m' e' -> neg = true.
Proof.
  unfold Float.of_decimal.
  destruct m as [|p|p]; try discriminate.
  destruct (0 <=? e).
  - unfold binary_round.
    destruct (shl_align _ _ _) as [mz ez].
    intros H. now apply binary_round_aux_sign in H.
  - unfold SFdiv.
    destruct (SFdiv_core_binary _ _ _ _ _ _) as [[mz ez] lz].
    intros H. apply binary_round_aux_sign in H.
    now destruct neg.
Qed.

Lemma In_drop_underscores (t : Float.tok) (ts : list Float.tok) :
  forall prev ts', Float.drop_underscores prev ts = Some ts' -> In t ts' -> In t ts.
Proof.
  induction ts as [|a ts IH]; intros prev ts' H Hin.
  - simpl in H. destruct prev; inversion H; subst; destruct Hin.
  - assert (Hstep : forall q, option_map (cons a) (Float.drop_underscores a ts) = Some q ->
                              In t q -> In t (a :: ts)).
    { intros q Hq Hq'.
      destruct (Float.drop_underscores a ts) as [r|] eqn:E; [|discriminate].
      injection Hq as <-. destruct Hq' as [->|Hq']; [now left|].
      right. eapply IH; eauto. }
    destruct a; simpl in H;
      try (destruct prev; try discriminate; now eapply Hstep; eauto).
    destruct prev; try discriminate. right. eapply IH; eauto.
Qed.

Lemma In_lstrip_space (t : Float.tok) (ts : list Float.tok) :
  In t (Float.lstrip_space ts) -> In t ts.
Proof.
  induction ts as [|a ts IH]; simpl; [tauto|].
  destruct a; simpl; auto.
Qed.

Lemma In_rstrip_space (t : Float.tok) (ts : list Float.tok) :
  In t (Float.rstrip_space ts) -> In t ts.
Proof.
  induction ts as [|a ts IH]; simpl; [tauto|].
  destruct (Float.rstrip_space ts) as [|b r] eqn:E; destruct a;
    intros H; try (destruct H; fail);
    (destruct H as [H|H]; [now left|right; now apply IH]).
Qed.

Lemma parse_tokens_negative (ts : list Float.tok) (m : positive) (e : Z) :
  Float.parse_tokens ts = Some (S754_finite true m e) -> In (Float.TSign true) ts.
Proof.
  unfold Float.parse_tokens.
  destruct (Float.drop_underscores Float.TOther ts) as [ts1|] eqn:E1; [|discriminate].
  destruct (Float.rstrip_space (Float.lstrip_space ts1)) as [|a ts2] eqn:E2;
    [discriminate|].
  intros H.
  assert (Hneg : fst (Float.take_sign (a :: ts2)) = true).
  { destruct (Float.take_sign (a :: ts2)) as [neg body]. simpl.
    destruct (Float.is_word "inf" body || Float.is_word "infinity" body)%bool;
      [discriminate|].
    destruct (Float.is_word "nan" body); [discriminate|].
    destruct (Float.parse_decimal body) as [[dm de]|]; [|discriminate].
    injection H as H. eapply of_decimal_sign; eauto. }
  assert (Ha : a = Float.TSign true).
  { destruct a; simpl in Hneg; try discriminate. now subst. }
  eapply In_drop_underscores; [exact E1|].
  apply In_lstrip_space, In_rstrip_space. rewrite E2, Ha. now left.
Qed.

Lemma classify_minus (c : ascii) :
  Float.classify c = Float.TSign true -> c = "-"%char.
Proof. each_char c; vm_compute; intros H; try discriminate; reflexivity. Qed.

Lemma tokens_minus (s : string) :
  In (Float.TSign true) (Float.tokens s) -> mem_char "-" s = true.
Proof.
  unfold Float.tokens.
  induction s as [|c s IH]; simpl; [tauto|].
  intros [H|H].
  - apply classify_minus in H. subst. reflexivity.
  - rewrite IH by exact H. apply orb_true_r.
Qed.

Lemma mem_char_drop_last (x : ascii) (s : string) :
  mem_char x (Str.drop_last s) = true -> mem_char x s = true.
Proof.
  induction s as [|c s IH]; simpl; [tauto|].
  destruct s as [|c' s']; [discriminate|].
  cbn [mem_char]. intros H. apply orb_true_iff in H. apply orb_true_iff.
  destruct H as [H|H]; [now left|right]. now apply IH.
Qed.

Lemma mem_char_remove (x y : ascii) (s : string) :
  mem_char x (Str.remove y s) = true -> mem_char x s = true.
Proof.
  induction s as [|c s IH]; simpl; [tauto|].
  destruct (Ascii.eqb c y); simpl; intros H.
  - rewrite IH by exact H. apply orb_true_r.
  - apply orb_true_iff in H. apply orb_true_iff. destruct H; auto.
Qed.

Lemma scaled_value_negative (text : string) (m : positive) (e : Z) :
  Reference.scaled_value text = Some (S754_finite true m e) ->
  mem_char "-" text = true.
Proof.
  unfold Reference.scaled_value, Reference.unit_suffix, Reference.strip_separators.
  set (t := Str.remove "," text).
  assert (Hbody : forall body k,
             match Float.parse_tokens (Float.tokens body) with
             | Some x => Some (SFmul Float.prec Float.emax x
                                 (binary_normalize Float.prec Float.emax (Zpos k) 0 false))
             | None => None
             end = Some (S754_finite true m e) ->
             (exists my ey, binary_normalize Float.prec Float.emax (Zpos k) 0 false
                            = S754_finite false my ey) ->
             mem_char "-" body = true).
  { intros body k H [my [ey Hk]]. rewrite Hk in H.
    destruct (Float.parse_tokens (Float.tokens body)) as [x|] eqn:E; [|discriminate].
    injection H as H. apply SFmul_sign in H. destruct H as [mx [ex ->]].
    apply tokens_minus. eapply parse_tokens_negative; eauto. }
  destruct (Str.endswith t "k" || Str.endswith t "K")%bool;
    [|destruct (Str.endswith t "m" || Str.endswith t "M")%bool];
    intros H; apply Hbody in H; try (vm_compute; eauto; fail);
    unfold t in H; try apply mem_char_drop_last in H;
    eapply mem_char_remove; eauto.
Qed.

(** A text without a minus sign is never read as a negative number. *)
Lemma parse_number_nonneg (text : string) (n : Z) :
  _parse_number text = Ret n -> mem_char "-" text = false -> 0 <= n.
Proof.
  rewrite parse_number_unfold. intros H Hm.
  destruct (Z.le_gt_cases 0 n) as [Hle|Hlt]; [exact Hle|exfalso].
  destruct (Reference.scaled_value text) as [x|] eqn:E.
  - assert (Hx : Float.to_int x = Ret n).
    { destruct (Float.to_int x) as [k|ex] eqn:Ek; simpl in H.
      - exact H.
      - destruct (is_ValueError_or_TypeError ex); [|discriminate].
        injection H as <-. lia. }
    destruct (to_int_negative x n Hx) as [m [e ->]]; [lia|].
    apply scaled_value_negative in E. congruence.
  - injection H as <-. lia.
Qed.

(** Text the number grammar rejects is read as 0. *)
Lemma parse_number_unparseable (text : string) :
  Reference.scaled_value text = None -> _parse_number text = Ret 0.
Proof. rewrite parse_number_unfold. now intros ->. Qed.

(** ** Path segments *)

Lemma lstrip_char_start (x : ascii) (s : string) :
  starts_with x (Str.lstrip_by (Ascii.eqb x) s) = false.
Proof.
  induction s as [|c s IH]; simpl; [reflexivity|].
  destruct (Ascii.eqb x c) eqn:E; [exact IH|].
  simpl. now rewrite Ascii.eqb_sym.
Qed.

Lemma rstrip_keeps_start (p : ascii -> bool) (x : ascii) (s : string) :
  starts_with x s = false -> starts_with x (Str.rstrip_by p s) = false.
Proof.
  destruct s as [|c s]; simpl; [reflexivity|].
  intros H. destruct (Str.rstrip_by p s); [destruct (p c)|]; simpl; auto.
Qed.

Lemma rstrip_char_end (x : ascii) (s : string) :
  Str.endswith (Str.rstrip_by (Ascii.eqb x) s) x = false.
Proof.
  induction s as [|c s IH]; simpl; [reflexivity|].
  destruct (Str.rstrip_by (Ascii.eqb x) s) as [|d r] eqn:E.
  - destruct (Ascii.eqb x c) eqn:Ec; simpl; [reflexivity|].
    now rewrite Ascii.eqb_sym.
  - exact IH.
Qed.

Lemma split_nonempty (x : ascii) (s : string) : Str.split x s <> [].
Proof.
  destruct s as [|c s]; simpl; [discriminate|].
  destruct (Ascii.eqb c x); [discriminate|].
  destruct (Str.split x s); discriminate.
Qed.

Lemma split_first_empty (x : ascii) (s : string) (t : list string) :
  Str.split x s = EmptyString :: t -> s = EmptyString \/ starts_with x s = true.
Proof.
  destruct s as [|c s]; simpl; [now left|].
  destruct (Ascii.eqb c x) eqn:E; [now right|].
  destruct (Str.split x s); discriminate.
Qed.

Lemma split_last_empty (x : ascii) (s : string) :
  last (Str.split x s) EmptyString = EmptyString ->
  s = EmptyString \/ Str.endswith s x = true.
Proof.
  induction s as [|c s IH]; [now left|].
  right. simpl Str.split in H.
  destruct (Ascii.eqb c x) eqn:E.
  - assert (H' : last (Str.split x s) EmptyString = EmptyString).
    { destruct (Str.split x s) eqn:Es; [now apply split_nonempty in Es|exact H]. }
    destruct (IH H') as [->|He]; simpl; [exact E|].
    destruct s; [discriminate|exact He].
  - destruct (Str.split x s) as [|h t] eqn:Es; [now apply split_nonempty in Es|].
    assert (H' : last (h :: t) EmptyString = EmptyString).
    { destruct t; [discriminate|exact H]. }
    destruct (IH H') as [->|He].
    { simpl in Es. injection Es as <- <-. discriminate H. }
    simpl. destruct s; [discriminate|exact He].
Qed.

(** The two parts of a path stripped of its slashes are not empty. *)
Lemma two_segments_nonempty (path a b : string) :
  Str.split "/" (Str.strip_char "/" path) = [a; b] ->
  a <> EmptyString /\ b <> EmptyString.
Proof.
  intros H. split; intros ->.
  - destruct (split_first_empty _ _ _ H) as [H1|H1].
    + rewrite H1 in H. discriminate.
    + unfold Str.strip_char in H1.
      rewrite rstrip_keeps_start in H1; [discriminate|apply lstrip_char_start].
  - assert (Hl : last (Str.split "/" (Str.strip_char "/" path)) EmptyString = EmptyString)
      by now rewrite H.
    apply split_last_empty in Hl. destruct Hl as [Hl|Hl].
    + rewrite Hl in H. discriminate.
    + unfold Str.strip_char in Hl. now rewrite rstrip_char_end in Hl.
Qed.

(** ** Per-entry extraction *)

Section ExtractorFacts.

Variable settings : Settings.
Variable platform : Platform.

(** The constructor keeps every field it is given, except that the
    two addresses are replaced by their validated forms. *)
Lemma TrendingRepository_init_inv
      (n u : string) (d : option string) (st fk : Z) (l lc : option string)
      (today period : Z) (o rn : string) (av : option string) (t : Z)
      (r : TrendingRepository) :
  TrendingRepository_init platform n u d st fk l lc today period o rn av t = Ret r ->
  name r = n /\ HttpUrl platform u = Some (url r)
  /\ stars r = st /\ forks r = fk
  /\ stars_today r = today /\ period_stars r = period
  /\ owner r = o /\ repo_name r = rn.
Proof.
  unfold TrendingRepository_init.
  destruct (HttpUrl platform u) as [u'|]; [|discriminate].
  destruct av as [a|].
  - destruct (HttpUrl platform a) as [a'|]; [|discriminate].
    intros [= <-]. simpl. tauto.
  - intros [= <-]. simpl. tauto.
Qed.

(** What a successful extraction tells about the entry. *)
Lemma parse_single_inv (clock : Z) (article : Bs4.Tag) (r : TrendingRepository) :
  _parse_single_repository settings platform clock article = Ret (Some r) ->
  exists repo_path repo_url st fk today,
    title_path article = Some repo_path
    /\ Str.nonempty repo_path = true
    /\ urljoin platform (github_base_url settings) repo_path = Ret repo_url
    /\ HttpUrl platform repo_url = Some (url r)
    /\ name r = Str.strip_char "/" repo_path
    /\ Str.split "/" (name r) = [owner r; repo_name r]
    /\ _parse_stats article = Ret (st, fk)
    /\ _parse_stars_today article = Ret today
    /\ stars r = st /\ forks r = fk
    /\ stars_today r = today /\ period_stars r = today.
Proof.
  unfold _parse_single_repository, title_path.
  destruct (Bs4.find article (Bs4.by_class "h2" "h3 lh-condensed")) as [title|];
    [|discriminate].
  destruct (Bs4.find title (Bs4.by_name "a")) as [link|]; [|discriminate].
  set (repo_path := Str.strip (Bs4.get_default link "href" "")).
  destruct (Str.nonempty repo_path) eqn:Hne; [|discriminate].
  cbn [negb].
  destruct (urljoin platform (github_base_url settings) repo_path) as [repo_url|e] eqn:Hu;
    [|discriminate].
  cbn [obind].
  destruct (Str.split "/" (Str.strip_char "/" repo_path)) as [|o [|rn [|x parts]]] eqn:Hs;
    try discriminate.
  destruct (parse_language article) as [lang color].
  destruct (_parse_stats article) as [[st fk]|e]; [|discriminate].
  cbn [obind].
  destruct (_parse_stars_today article) as [today|e]; [|discriminate].
  cbn [obind].
  destruct (_parse_avatar_url settings platform article) as [av|e]; [|discriminate].
  cbn [obind].
  destruct (TrendingRepository_init _ _ _ _ _ _ _ _ _ _ _ _ _ _) as [r'|e] eqn:Hi;
    [|discriminate].
  cbn [obind try_except]. intros [= <-].
  apply TrendingRepository_init_inv in Hi.
  destruct Hi as (Hn & Hurl & Hst & Hfk & Htd & Hpd & Ho & Hrn).
  exists repo_path, repo_url, st, fk, today.
  rewrite Hn, Ho, Hrn. repeat split; auto.
Qed.


(** An entry without a title link, or whose path does not consist of
    two segments, yields no record. *)
Lemma parse_single_bad_path (clock : Z) (article : Bs4.Tag) :
  match title_path article with
  | None => True
  | Some p => List.length (Str.split "/" (Str.strip_char "/" p)) <> 2%nat
  end ->
  _parse_single_repository settings platform clock article = Ret None.
Proof.
  unfold _parse_single_repository, title_path.
  destruct (Bs4.find article (Bs4.by_class "h2" "h3 lh-condensed")) as [title|];
    [|reflexivity].
  destruct (Bs4.find title (Bs4.by_name "a")) as [link|]; [|reflexivity].
  set (repo_path := Str.strip (Bs4.get_default link "href" "")).
  intros Hlen.
  destruct (Str.nonempty repo_path); [|reflexivity].
  cbn [negb].
  destruct (urljoin platform (github_base_url settings) repo_path); [|reflexivity].
  cbn [obind].
  destruct (Str.split "/" (Str.strip_char "/" repo_path)) as [|o [|rn [|x parts]]];
    try reflexivity.
  now contradiction Hlen.
Qed.

End ExtractorFacts.

(** ** The list of entries *)

Section ExtractionFacts.

Variable settings : Settings.
Variable platform : Platform.

Lemma articles_loop_spec (articles : list Bs4.Tag) :
  forall (i : nat) (repositories : list TrendingRepository),
    articles_loop settings platform i articles repositories
    = Ret (repositories ++ records_from settings platform i articles)%list.
Proof.
  induction articles as [|article rest IH]; intros i repositories; simpl.
  - now rewrite app_nil_r.
  - destruct (_parse_single_repository settings platform (now platform i) article)
      as [[r|]|e]; simpl; rewrite IH.
    + now rewrite <- app_assoc.
    + reflexivity.
    + reflexivity.
Qed.

(** Extraction raises what the parser raises, and otherwise returns
    the records of the entries. *)
Lemma parse_repositories_spec (html_content : string) :
  _parse_repositories settings platform html_content
  = match html_parser platform html_content with
    | Ret _ => Ret (records_from settings platform 0 (entries platform html_content))
    | Raise e => Raise e
    end.
Proof.
  unfold _parse_repositories, entries.
  destruct (html_parser platform html_content) as [nodes|e]; [|reflexivity].
  cbn [obind].
  destruct (Bs4.find_all (Bs4.soup nodes) (Bs4.by_class "article" "Box-row"))
    as [|a l] eqn:E; [reflexivity|].
  now rewrite articles_loop_spec.
Qed.

Lemma parse_repositories_accepted (html_content : string) (nodes : list Bs4.node) :
  html_parser platform html_content = Ret nodes ->
  _parse_repositories settings platform html_content
  = Ret (records_from settings platform 0 (entries platform html_content)).
Proof. intros H. now rewrite parse_repositories_spec, H. Qed.

Lemma parse_repositories_returns (html_content : string)
      (records : list TrendingRepository) :
  _parse_repositories settings platform html_content = Ret records ->
  records = records_from settings platform 0 (entries platform html_content).
Proof.
  rewrite parse_repositories_spec.
  destruct (html_parser platform html_content); [|discriminate].
  now intros [= <-].
Qed.

(** Extraction raises only when the parser does. *)
Lemma parse_repositories_raises (html_content : string) (e : exn) :
  _parse_repositories settings platform html_content = Raise e ->
  html_parser platform html_content = Raise e.
Proof.
  rewrite parse_repositories_spec.
  destruct (html_parser platform html_content); [discriminate|].
  now intros [= <-].
Qed.


Lemma count_entries_total (articles : list Bs4.Tag) :
  forall i, (count_entries settings platform true i articles + count_entries settings platform false i articles
             = List.length articles)%nat.
Proof.
  induction articles as [|article rest IH]; intros i; simpl; [reflexivity|].
  specialize (IH (S i)).
  destruct (yields_record settings platform i article); simpl; lia.
Qed.

Lemma records_from_In (r : TrendingRepository) (articles : list Bs4.Tag) :
  forall i, In r (records_from settings platform i articles) ->
            exists j article,
              In article articles
              /\ _parse_single_repository settings platform (now platform j) article
                 = Ret (Some r).
Proof.
  induction articles as [|article rest IH]; intros i; simpl; [tauto|].
  destruct (_parse_single_repository settings platform (now platform i) article)
    as [[r'|]|e] eqn:E.
  - intros [->|H].
    + exists i, article. split; [now left|exact E].
    + destruct (IH _ H) as (j & a & Ha & Hp). exists j, a. split; [now right|exact Hp].
  - intros H. destruct (IH _ H) as (j & a & Ha & Hp). exists j, a. split; [now right|exact Hp].
  - intros H. destruct (IH _ H) as (j & a & Ha & Hp). exists j, a. split; [now right|exact Hp].
Qed.

(** Every record comes from an entry of the page. *)
Lemma record_origin (html_content : string) (records : list TrendingRepository)
      (r : TrendingRepository) :
  _parse_repositories settings platform html_content = Ret records ->
  In r records ->
  exists j article,
    In article (entries platform html_content)
    /\ _parse_single_repository settings platform (now platform j) article
       = Ret (Some r).
Proof.
  intros H. apply parse_repositories_returns in H. subst records.
  apply records_from_In.
Qed.

End ExtractionFacts.

(** ** What makes an entry well formed *)




Section WellFormed.

Variable settings : Settings.
Variable platform : Platform.








End WellFormed.




(** C6. Every record extraction emits has a two-part identity, both
    parts non-empty, taken from the title path of an entry of the page,
    and an address obtained by joining that path to the base address;
    an entry whose title path has no two segments yields no record,
    and extraction raises only what the parser raised on the page. *)
Theorem identity_invariant (settings : Settings) (platform : Platform)
        (html_content : string) :
  match _parse_repositories settings platform html_content with
  | Ret records =>
      forall r, In r records ->
        Str.split "/" (name r) = [owner r; repo_name r]
        /\ owner r <> EmptyString
        /\ repo_name r <> EmptyString
        /\ exists article path joined,
             In article (entries platform html_content)
             /\ title_path article = Some path
             /\ name r = Str.strip_char "/" path
             /\ urljoin platform (github_base_url settings) path = Ret joined
             /\ HttpUrl platform joined = Some (url r)
  | Raise e => html_parser platform html_content = Raise e
  end
  /\ (forall clock article,
        match title_path article with
        | None => True
        | Some p => List.length (Str.split "/" (Str.strip_char "/" p)) <> 2%nat
        end ->
        _parse_single_repository settings platform clock article = Ret None).
Proof.
  split; [|intros clock article; apply parse_single_bad_path].
  destruct (_parse_repositories settings platform html_content) as [records|e] eqn:E;
    [|now apply parse_repositories_raises in E].
  apply parse_repositories_returns in E. subst records.
  intros r Hr.
  apply records_from_In in Hr. destruct Hr as (j & article & Ha & Hp).
  apply parse_single_inv in Hp.
  destruct Hp as (path & joined & st & fk & today & Hp & _ & Hj & Hu & Hn & Hs & _).
  assert (Hs' := Hs). rewrite Hn in Hs'.
  apply two_segments_nonempty in Hs'.
  destruct Hs' as [Ho Hrn].
  repeat split; auto. now exists article, path, joined.
Qed.

(** C10. In every record extraction emits, [period_stars] equals
    [stars_today]: both hold the value read from the one counter of the
    entry. *)
Theorem period_stars_is_stars_today (settings : Settings) (platform : Platform)
        (html_content : string) :
  match _parse_repositories settings platform html_content with
  | Ret records =>
      forall r, In r records ->
        period_stars r = stars_today r
        /\ exists article,
             In article (entries platform html_content)
             /\ _parse_stars_today article = Ret (stars_today r)
  | Raise e => html_parser platform html_content = Raise e
  end.
Proof.
  destruct (_parse_repositories settings platform html_content) as [records|e] eqn:E;
    [|now apply parse_repositories_raises in E].
  apply parse_repositories_returns in E. subst records.
  intros r Hr.
  apply records_from_In in Hr. destruct Hr as (j & article & Ha & Hp).
  apply parse_single_inv in Hp.
  destruct Hp as (path & joined & st & fk & today & _ & _ & _ & _ & _ & _ & _
                  & Ht & _ & _ & Htd & Hpd).
  split; [congruence|].
  exists article. split; [exact Ha|congruence].
Qed.

(** ** Counters *)

Lemma last_opt_cons {A} (a : A) (l : list A) : last_opt (a :: l) <> None.
Proof.
  revert a. induction l as [|b l IH]; intros a; [discriminate|].
  change (last_opt (a :: b :: l)) with (last_opt (b :: l)). apply IH.
Qed.

Lemma reads_last_cons (text : string) (texts : list string) (v0 v1 v : Z) :
  _parse_number text = Ret v1 -> reads_last texts v1 v ->
  reads_last (text :: texts) v0 v.
Proof.
  unfold reads_last. intros H1 H.
  destruct texts as [|t ts]; [simpl in *; congruence|].
  change (last_opt (text :: t :: ts)) with (last_opt (t :: ts)).
  destruct (last_opt (t :: ts)) eqn:E; [exact H|].
  now apply last_opt_cons in E.
Qed.

Lemma parse_stats_loop_spec (stat_links : list Bs4.Tag) :
  forall stars0 forks0 stars1 forks1,
    _parse_stats_loop stat_links stars0 forks0 = Ret (stars1, forks1) ->
    reads_last (stargazers_texts stat_links) stars0 stars1
    /\ reads_last (forks_texts stat_links) forks0 forks1.
Proof.
  induction stat_links as [|link rest IH]; intros s0 f0 s1 f1; simpl.
  - intros [= <- <-]. now split.
  - unfold stargazers_texts, forks_texts in *. simpl. fold (link_href link).
    destruct (Str.contains "/stargazers" (link_href link)); simpl.
    + destruct (_parse_number (Bs4.get_text_strip link)) as [s'|e] eqn:E;
        [|discriminate].
      simpl. intros H. apply IH in H. destruct H as [Hs Hf].
      split; [eapply reads_last_cons; eauto|exact Hf].
    + destruct (Str.contains "/forks" (link_href link)); simpl.
      * destruct (_parse_number (Bs4.get_text_strip link)) as [f'|e] eqn:E;
          [|discriminate].
        simpl. intros H. apply IH in H. destruct H as [Hs Hf].
        split; [exact Hs|eapply reads_last_cons; eauto].
      * apply IH.
Qed.

Lemma group_tail_chars (s : string) :
  forall m rest, Re.group_tail s = (m, rest) -> mem_char "-" m = false.
Proof.
  induction s as [|c s IH]; simpl; intros m rest.
  - now intros [= <- _].
  - destruct (Str.isdigit c) eqn:Ed.
    + destruct (Re.group_tail s) as [m' rest'].
      intros [= <- _]. simpl. rewrite (IH _ _ eq_refl), orb_false_r.
      clear -Ed. revert Ed. each_char c; vm_compute; congruence.
    + destruct (Ascii.eqb c ",") eqn:Ec; [|now intros [= <- _]].
      destruct s as [|d s']; [now intros [= <- _]|].
      destruct (Str.isdigit d); [|now intros [= <- _]].
      destruct (Re.group_tail (String d s')) as [m' rest'].
      intros [= <- _]. simpl. rewrite (IH _ _ eq_refl), orb_false_r.
      apply Ascii.eqb_eq in Ec. subst c. reflexivity.
Qed.

Lemma stars_today_here_chars (s g : string) :
  Re.stars_today_here s = Some g -> mem_char "-" g = false.
Proof.
  unfold Re.stars_today_here.
  destruct s as [|c s]; [discriminate|].
  destruct (Str.isdigit c) eqn:Ed; [|discriminate].
  destruct (Re.group_tail s) as [m rest] eqn:Eg.
  destruct (Re.spaces1 rest) as [r1|]; [|discriminate].
  destruct (Re.strip_prefix "star" r1) as [r2|]; [|discriminate].
  destruct (Re.spaces1 _) as [r4|]; [|discriminate].
  destruct (Re.strip_prefix "today" r4); [|discriminate].
  intros [= <-].
  cbn [mem_char]. rewrite (group_tail_chars _ _ _ Eg), orb_false_r.
  clear -Ed. revert Ed. each_char c; vm_compute; congruence.
Qed.

Lemma stars_today_search_chars (s g : string) :
  Re.stars_today_search s = Some g -> mem_char "-" g = false.
Proof.
  induction s as [|c s IH].
  - cbn [Re.stars_today_search].
    destruct (Re.stars_today_here "") eqn:E; [|discriminate].
    intros [= <-]. eapply stars_today_here_chars; eauto.
  - cbn [Re.stars_today_search].
    destruct (Re.stars_today_here (String c s)) eqn:E; [|exact IH].
    intros [= <-]. eapply stars_today_here_chars; eauto.
Qed.

(** The counter of new stars is never negative. *)
Lemma parse_stars_today_nonneg (article : Bs4.Tag) (today : Z) :
  _parse_stars_today article = Ret today -> 0 <= today.
Proof.
  unfold _parse_stars_today.
  destruct (Bs4.find article _) as [el|]; [|intros [= <-]; lia].
  destruct (Re.stars_today_search (Bs4.get_text_strip el)) as [g|] eqn:E;
    [|intros [= <-]; lia].
  intros H. eapply parse_number_nonneg; [exact H|].
  eapply stars_today_search_chars; eauto.
Qed.

(** C9, as stated, fails: on a page whose only entry shows the star
    counter "-5", extraction emits a record with -5 stars. *)
Lemma negative_star_count :
  exists r : TrendingRepository,
    _parse_repositories Demo.settings Demo.platform
      "<article class='Box-row'><h2 class='h3 lh-condensed'><a href='/octo/cat'>repo</a></h2><a class='Link--muted' href='/octo/cat/stargazers'>-5</a></article>"
    = Ret [r]
    /\ stars r = -5
    /\ ~ (0 <= stars r).
Proof.
  eexists. split; [vm_compute; reflexivity|].
  split; [reflexivity|]. simpl. lia.
Qed.

(** The counter of new stars holds the reading of what the pattern
    captures, and 0 when there is no counter element or the pattern
    does not match its text. *)
Lemma parse_stars_today_reads (article : Bs4.Tag) (today : Z) :
  _parse_stars_today article = Ret today ->
  reads_last (period_texts article) 0 today.
Proof.
  unfold _parse_stars_today, period_texts, reads_last.
  destruct (Bs4.find article _) as [el|]; [|now intros [= <-]].
  destruct (Re.stars_today_search (Bs4.get_text_strip el)) as [g|];
    [|now intros [= <-]].
  cbn [last_opt]. auto.
Qed.

(** C9, amended. In every record extraction emits, [period_stars] is a
    non-negative integer: the reading of what the pattern captures in
    the counter of new stars, and 0 when that counter is absent or its
    text does not match.  [stars] and [forks] are the readings of the
    last stargazers link and of the last forks link of the entry, and
    0 when there is no such link.  A reading is 0 when the text is not
    a number, and it is non-negative unless the text contains a minus
    sign. *)
Theorem counters_of_records (settings : Settings) (platform : Platform)
        (html_content : string) :
  match _parse_repositories settings platform html_content with
  | Ret records =>
      forall r, In r records ->
        0 <= period_stars r
        /\ exists article,
             In article (entries platform html_content)
             /\ _parse_stars_today article = Ret (period_stars r)
             /\ reads_last (period_texts article) 0 (period_stars r)
             /\ reads_last (stargazers_texts (stat_links_of article)) 0 (stars r)
             /\ reads_last (forks_texts (stat_links_of article)) 0 (forks r)
  | Raise e => html_parser platform html_content = Raise e
  end
  /\ (forall texts value,
        reads_last texts 0 value ->
        match last_opt texts with
        | None => value = 0
        | Some text =>
            (Reference.scaled_value text = None -> value = 0)
            /\ (mem_char "-" text = false -> 0 <= value)
        end)
  /\ (forall text n,
        _parse_number text = Ret n -> mem_char "-" text = false -> 0 <= n)
  /\ (forall text,
        Reference.scaled_value text = None -> _parse_number text = Ret 0).
Proof.
  split; [|split; [|split; [exact parse_number_nonneg|exact parse_number_unparseable]]].
  - destruct (_parse_repositories settings platform html_content)
      as [records|e] eqn:E; [|now apply parse_repositories_raises in E].
    apply parse_repositories_returns in E. subst records.
    intros r Hr.
    apply records_from_In in Hr. destruct Hr as (j & article & Ha & Hp).
    apply parse_single_inv in Hp.
    destruct Hp as (path & joined & st & fk & today & _ & _ & _ & _ & _ & _ & Hst
                    & Ht & Hs & Hf & Htd & Hpd).
    apply parse_stats_loop_spec in Hst. destruct Hst as [Hstars Hforks].
    split.
    + rewrite Hpd. eapply parse_stars_today_nonneg; eauto.
    + exists article. rewrite Hpd, Hs, Hf.
      repeat split; auto. now apply parse_stars_today_reads.
  - intros texts value. unfold reads_last.
    destruct (last_opt texts) as [text|]; [|auto].
    intros H. split.
    + intros Hn. rewrite (parse_number_unparseable _ Hn) in H. congruence.
    + intros Hm. eapply parse_number_nonneg; eauto.
Qed.

(** ** One attempt *)

Section FetchFacts.

Variable settings : Settings.
Variable platform : Platform.
Variable network : Network.

Lemma fetch_page_run (url : string) (w : world) :
  _fetch_page settings network url w
  = (match http network (requests w) url with
     | Response status text _ =>
         if status =? 200 then Ret text
         else Raise (Exception_ ("HTTP " ++ Str.of_Z status ++ ": " ++ text))
     | TransportFailure e => Raise e
     end,
     after_fetch settings network url w).
Proof.
  cbv [_fetch_page mbind random_choice random_uniform random_random
        asyncio_sleep session_get mret mraise after_fetch uniform_value
        chosen_agent requests draws trace].
  rewrite <- app_assoc. cbn [app].
  destruct (http network (match w with mkWorld n _ _ => n end) url)
    as [status text headers|e]; [|reflexivity].
  destruct (status =? 200); reflexivity.
Qed.

Lemma attempt_body_success (url : string) (limit attempt : Z) (w : world)
      (html_content : string) (headers : list (string * string))
      (nodes : list Bs4.node) :
  http network (requests w) url = Response 200 html_content headers ->
  html_parser platform html_content = Ret nodes ->
  attempt_body settings platform network url limit attempt w
  = (Ret (Some (limited limit
                  (records_from settings platform 0 (entries platform html_content)))),
     after_fetch settings network url w).
Proof.
  intros H Hp. unfold attempt_body, mtry, mbind.
  rewrite fetch_page_run, H. cbn [Z.eqb Pos.eqb].
  unfold lift. rewrite (parse_repositories_accepted _ _ _ _ Hp). reflexivity.
Qed.

(** What the handler of [fetch_trending] does with the error of
    attempt [attempt]. *)
Lemma handler_run (attempt : Z) (e : exn) (w : world) :
  (if attempt <? max_retries settings - 1 then
     (base_delay <- lift (Float.mul_int (request_delay settings) (2 ^ attempt)) ;;
      jitter <- random_uniform network half one_and_half ;;
      let retry_delay := SFmul Float.prec Float.emax base_delay jitter in
      asyncio_sleep retry_delay ;;
      mret None)%crawl
   else mraise e) w
  = if attempt <? max_retries settings - 1 then
      match Float.of_int (2 ^ attempt) with
      | Ret _ => (Ret (@None (list TrendingRepository)),
                  after_backoff settings network attempt w)
      | Raise e' => (Raise e', w)
      end
    else (Raise e, w).
Proof.
  destruct (attempt <? max_retries settings - 1); [|reflexivity].
  cbv [lift Float.mul_int obind base_delay after_backoff random_uniform
        random_random asyncio_sleep mret mbind uniform_value Float.of_int].
  destruct (binary_normalize Float.prec Float.emax (2 ^ attempt) 0 false);
    reflexivity.
Qed.

Lemma attempt_body_failure (url : string) (limit attempt : Z) (w : world) (e : exn) :
  attempt_error platform (http network (requests w) url) = Some e ->
  attempt_body settings platform network url limit attempt w
  = if attempt <? max_retries settings - 1 then
      match Float.of_int (2 ^ attempt) with
      | Ret _ => (Ret None, after_backoff settings network attempt (after_fetch settings network url w))
      | Raise e' => (Raise e', after_fetch settings network url w)
      end
    else (Raise e, after_fetch settings network url w).
Proof.
  intros H. rewrite <- handler_run.
  unfold attempt_body, mtry, mbind at 1.
  rewrite fetch_page_run.
  unfold attempt_error, failure_of, rejection_of in H.
  destruct (http network (requests w) url) as [status text headers|e0].
  - destruct (status =? 200).
    + unfold mbind at 1, lift. rewrite parse_repositories_spec.
      destruct (html_parser platform text) as [nodes|e1]; [discriminate|].
      injection H as <-. reflexivity.
    + injection H as <-. reflexivity.
  - injection H as <-. reflexivity.
Qed.

Lemma failure_is_attempt_error (r : http_result) (e : exn) :
  failure_of r = Some e -> attempt_error platform r = Some e.
Proof. unfold attempt_error. now intros ->. Qed.

Lemma rejection_is_attempt_error (html_content : string)
      (headers : list (string * string)) (e : exn) :
  html_parser platform html_content = Raise e ->
  attempt_error platform (Response 200 html_content headers) = Some e.
Proof. unfold attempt_error, failure_of, rejection_of. cbn. now intros ->. Qed.

(** An attempt fails exactly when its request fails or the parser
    rejects the page. *)
Lemma attempt_error_none (r : http_result) :
  attempt_error platform r = None ->
  exists html_content headers nodes,
    r = Response 200 html_content headers
    /\ html_parser platform html_content = Ret nodes.
Proof.
  unfold attempt_error, failure_of, rejection_of.
  destruct r as [status text headers|e]; [|discriminate].
  destruct (status =? 200) eqn:E; [|discriminate].
  apply Z.eqb_eq in E. subst status.
  destruct (html_parser platform text) as [nodes|e] eqn:Ep; [|discriminate].
  intros _. now exists text, headers, nodes.
Qed.

End FetchFacts.

(** ** The retry loop *)

(** Every power of two below [2 ** 1024] converts to a float. *)
Lemma of_int_pow2_table :
  forallb (fun a => match Float.of_int (2 ^ Z.of_nat a) with
                    | Ret _ => true
                    | Raise _ => false
                    end) (seq 0 1024) = true.
Proof. vm_compute. reflexivity. Qed.

Lemma of_int_pow2 (attempt : Z) :
  0 <= attempt < 1024 -> exists y, Float.of_int (2 ^ attempt) = Ret y.
Proof.
  intros H.
  pose proof (proj1 (forallb_forall _ _) of_int_pow2_table (Z.to_nat attempt)) as Ht.
  cbv beta in Ht. rewrite Z2Nat.id in Ht by lia.
  destruct (Float.of_int (2 ^ attempt)) as [y|e]; [now exists y|].
  assert (false = true); [|discriminate].
  apply Ht. apply in_seq. lia.
Qed.

(** [2 ** 1024] does not. *)
Lemma of_int_pow2_1024 :
  Float.of_int (2 ^ 1024) = Raise (OverflowError "int too large to convert to float").
Proof. vm_compute. reflexivity. Qed.

Section RetryFacts.

Variable settings : Settings.
Variable platform : Platform.
Variable network : Network.
Variable url : string.
Variable limit : Z.

Lemma after_failures_requests (j : nat) :
  forall attempt w, requests (after_failures settings network url j attempt w) = (requests w + j)%nat.
Proof.
  induction j as [|j IH]; intros attempt w; simpl; [lia|].
  rewrite IH. simpl. lia.
Qed.

(** Failed attempts that are not the last one are followed by the next
    attempt. *)
Lemma attempts_loop_skip (j : nat) :
  forall (remaining : nat) (attempt : Z) (w : world),
    0 <= attempt ->
    attempt + Z.of_nat j <= 1024 ->
    attempt + Z.of_nat j < max_retries settings ->
    (forall i, (i < j)%nat ->
               attempt_error platform (http network (requests w + i) url) <> None) ->
    attempts_loop settings platform network url limit (j + remaining) attempt w
    = attempts_loop settings platform network url limit remaining
        (attempt + Z.of_nat j) (after_failures settings network url j attempt w).
Proof.
  induction j as [|j IH]; intros remaining attempt w Ha Hb Hk Hf.
  - simpl. now rewrite Z.add_0_r.
  - cbn [Nat.add attempts_loop after_failures]. unfold mbind at 1.
    destruct (attempt_error platform (http network (requests w) url)) as [e|] eqn:E.
    2:{ exfalso. apply (Hf O); [lia|]. now rewrite Nat.add_0_r. }
    rewrite (attempt_body_failure settings platform network url limit attempt w e E).
    replace (attempt <? max_retries settings - 1) with true
      by (symmetry; apply Z.ltb_lt; lia).
    destruct (of_int_pow2 attempt) as [y Hy]; [lia|]. rewrite Hy.
    rewrite IH; try lia.
    + f_equal. lia.
    + intros i Hi.
      replace (requests (after_backoff settings network attempt
                           (after_fetch settings network url w)) + i)%nat
        with (requests w + S i)%nat by (simpl; lia).
      apply Hf. lia.
Qed.

(** A run in which the first [j] attempts fail and the next one is
    answered with status 200 and a page the parser accepts. *)
Lemma fetch_after_failures (language : option string) (since : string) (j : nat)
      (w : world) (html_content : string) (headers : list (string * string))
      (nodes : list Bs4.node) :
  url = _build_url settings language since ->
  (j < Z.to_nat (max_retries settings))%nat ->
  (j <= 1024)%nat ->
  (forall i, (i < j)%nat ->
             attempt_error platform (http network (requests w + i) url) <> None) ->
  http network (requests w + j) url = Response 200 html_content headers ->
  html_parser platform html_content = Ret nodes ->
  fetch_trending settings platform network language since limit w
  = (Ret (limited limit
            (records_from settings platform 0 (entries platform html_content))),
     after_fetch settings network url (after_failures settings network url j 0 w)).
Proof.
  intros Hu Hj Hb Hf Hs Hp.
  unfold fetch_trending. rewrite <- Hu.
  replace (Z.to_nat (max_retries settings))
    with (j + S (Z.to_nat (max_retries settings) - S j))%nat by lia.
  rewrite attempts_loop_skip; try lia; [|exact Hf].
  cbn [attempts_loop]. unfold mbind.
  erewrite attempt_body_success; [reflexivity| |exact Hp].
  rewrite after_failures_requests. exact Hs.
Qed.

(** A run in which all [K] attempts fail, for [K] up to 1025: the
    error of the last attempt is raised after [K] requests, each
    earlier failure being followed by its backoff. *)
Lemma fetch_exhausted (language : option string) (since : string) (w : world)
      (e : exn) :
  url = _build_url settings language since ->
  1 <= max_retries settings <= 1025 ->
  let K := Z.to_nat (max_retries settings) in
  (forall i, (i < K)%nat ->
             attempt_error platform (http network (requests w + i) url) <> None) ->
  attempt_error platform (http network (requests w + (K - 1)) url) = Some e ->
  let w' := after_fetch settings network url (after_failures settings network url (K - 1) 0 w) in
  fetch_trending settings platform network language since limit w = (Raise e, w')
  /\ requests w' = (requests w + K)%nat.
Proof.
  intros Hu Hk K Hf He w'.
  split.
  - unfold fetch_trending. rewrite <- Hu. fold K.
    replace K with ((K - 1) + 1)%nat at 1 by (unfold K; lia).
    rewrite attempts_loop_skip; try (unfold K; lia).
    + cbn [attempts_loop]. unfold mbind.
      erewrite attempt_body_failure
        by (rewrite after_failures_requests; exact He).
      replace (0 + Z.of_nat (K - 1) <? max_retries settings - 1) with false
        by (symmetry; apply Z.ltb_ge; unfold K; lia).
      reflexivity.
    + intros i Hi. apply Hf. lia.
  - unfold w'. cbn [requests after_fetch]. rewrite after_failures_requests.
    unfold K. lia.
Qed.

(** A run with more than 1025 attempts configured in which the first
    1025 attempts fail: the backoff after the 1025th failure raises
    [OverflowError], and no further attempt is made. *)
Lemma fetch_overflow (language : option string) (since : string) (w : world) :
  url = _build_url settings language since ->
  1026 <= max_retries settings ->
  (forall i, (i < 1025)%nat ->
             attempt_error platform (http network (requests w + i) url) <> None) ->
  fetch_trending settings platform network language since limit w
  = (Raise (OverflowError "int too large to convert to float"),
     after_fetch settings network url (after_failures settings network url 1024 0 w)).
Proof.
  intros Hu Hk Hf.
  unfold fetch_trending. rewrite <- Hu.
  replace (Z.to_nat (max_retries settings))
    with (1024 + S (Z.to_nat (max_retries settings) - 1025))%nat by lia.
  rewrite attempts_loop_skip; try lia.
  - cbn [attempts_loop]. unfold mbind.
    destruct (attempt_error platform (http network
                (requests (after_failures settings network url 1024 0 w)) url))
      as [e|] eqn:E.
    + rewrite (attempt_body_failure settings platform network url limit _ _ e E).
      replace (0 + Z.of_nat 1024) with 1024 by lia.
      replace (1024 <? max_retries settings - 1) with true
        by (symmetry; apply Z.ltb_lt; lia).
      now rewrite of_int_pow2_1024.
    + exfalso. rewrite after_failures_requests in E. apply (Hf 1024%nat); [lia|exact E].
  - intros i Hi. apply Hf. lia.
Qed.

End RetryFacts.

(** ** Fetching *)

Lemma limited_firstn (limit : Z) (l : list TrendingRepository) :
  1 <= limit -> limited limit l = firstn (Z.to_nat limit) l.
Proof.
  intros H. unfold limited, slice_to.
  replace (limit =? 0) with false by (symmetry; apply Z.eqb_neq; lia).
  replace (0 <=? limit) with true by (symmetry; apply Z.leb_le; lia).
  cbn [negb andb].
  destruct (limit <? Z.of_nat (List.length l)) eqn:E; [reflexivity|].
  apply Z.ltb_ge in E. symmetry. apply firstn_all2. lia.
Qed.

Lemma limited_nil (limit : Z) : limited limit [] = [].
Proof.
  unfold limited, slice_to.
  destruct (negb (limit =? 0) && (limit <? Z.of_nat (List.length (@nil TrendingRepository))))%bool;
    [|reflexivity].
  destruct (0 <=? limit); apply firstn_nil.
Qed.

Lemma last_opt_app2 {A} (l : list A) (a b : A) : last_opt (l ++ [a; b]) = Some b.
Proof.
  induction l as [|x l IH]; [reflexivity|].
  cbn [app]. destruct (l ++ [a; b])%list eqn:E; [now destruct l|exact IH].
Qed.



(** C7, as stated, fails on a page the parser rejects: the page
    [Demo.rejected_html] holds no entry container, yet extraction
    raises on it, and a fetch that receives it with status 200 at every
    request asks for it three times and ends with the parser's
    exception. *)
Lemma rejected_page_is_retried :
  Str.contains "<article" Demo.rejected_html = false
  /\ _parse_repositories Demo.settings Demo.platform Demo.rejected_html
     = Raise (ParserRejectedMarkup
                "AssertionError: unknown status keyword 'x' in marked section")
  /\ (forall n url,
        http (Demo.network 0 Demo.rejected_html) n url
        = Response 200 Demo.rejected_html [])
  /\ fst (fetch_trending Demo.settings Demo.platform
            (Demo.network 0 Demo.rejected_html) None "daily" 25 Demo.start)
     = Raise (ParserRejectedMarkup
                "AssertionError: unknown status keyword 'x' in marked section")
  /\ requests (snd (fetch_trending Demo.settings Demo.platform
                      (Demo.network 0 Demo.rejected_html) None "daily" 25
                      Demo.start))
     = 3%nat.
Proof.
  split; [vm_compute; reflexivity|].
  split; [vm_compute; reflexivity|].
  split; [intros n url; reflexivity|].
  split; vm_compute; reflexivity.
Qed.

(** C7, amended. When the parser accepts the page and the page has no
    entry container, extraction returns the empty list without
    raising; a fetch that receives such a page returns the empty list
    and makes no further request: the request that brought the page is
    the last thing it does. *)
Theorem drifted_page_yields_empty
        (settings : Settings) (platform : Platform) (html_content : string)
        (nodes : list Bs4.node) :
  html_parser platform html_content = Ret nodes ->
  Bs4.find_all (Bs4.soup nodes) (Bs4.by_class "article" "Box-row") = [] ->
  _parse_repositories settings platform html_content = Ret []
  /\ forall (network : Network) (language : option string) (since : string)
            (limit : Z) (w : world) (j : nat) (headers : list (string * string)),
       (j < Z.to_nat (max_retries settings))%nat ->
       (j <= 1024)%nat ->
       (forall i, (i < j)%nat ->
          attempt_error platform
            (http network (requests w + i) (_build_url settings language since))
          <> None) ->
       http network (requests w + j) (_build_url settings language since)
       = Response 200 html_content headers ->
       exists w' user_agent,
         fetch_trending settings platform network language since limit w = (Ret [], w')
         /\ requests w' = (requests w + j + 1)%nat
         /\ last_opt (trace w')
            = Some (Get (_build_url settings language since) user_agent).
Proof.
  intros Hp Hn.
  assert (He : entries platform html_content = [])
    by (unfold entries; now rewrite Hp).
  split; [rewrite (parse_repositories_accepted _ _ _ _ Hp), He; reflexivity|].
  intros network language since limit w j headers Hj Hb Hf Hs.
  eexists. eexists.
  split.
  - erewrite fetch_after_failures; eauto.
    rewrite He. cbn [records_from]. rewrite limited_nil. reflexivity.
  - split.
    + cbn [requests after_fetch]. rewrite after_failures_requests. lia.
    + cbn [trace after_fetch]. apply last_opt_app2.
Qed.

(** The page [Demo.drifted_html] is accepted by the parser and has no
    entry container; fetched at the second attempt it gives the empty
    list after two requests. *)
Lemma drifted_page_yields_empty_witness :
  (html_parser Demo.platform Demo.drifted_html = Ret Demo.drifted_tree
   /\ Bs4.find_all (Bs4.soup Demo.drifted_tree) (Bs4.by_class "article" "Box-row")
      = [])
  /\ _parse_repositories Demo.settings Demo.platform Demo.drifted_html = Ret []
  /\ exists w' user_agent,
       fetch_trending Demo.settings Demo.platform
         (Demo.network 1 Demo.drifted_html) None "daily" 25 Demo.start
       = (Ret [], w')
       /\ requests w' = (requests Demo.start + 1 + 1)%nat
       /\ last_opt (trace w')
          = Some (Get (_build_url Demo.settings None "daily") user_agent).
Proof.
  assert (Hp : html_parser Demo.platform Demo.drifted_html = Ret Demo.drifted_tree)
    by (vm_compute; reflexivity).
  assert (H0 : Bs4.find_all (Bs4.soup Demo.drifted_tree)
                 (Bs4.by_class "article" "Box-row") = [])
    by (vm_compute; reflexivity).
  split; [split; [exact Hp|exact H0]|].
  destruct (drifted_page_yields_empty Demo.settings Demo.platform
              Demo.drifted_html Demo.drifted_tree Hp H0) as [H1 H2].
  split; [exact H1|].
  apply (H2 (Demo.network 1 Demo.drifted_html) None "daily" 25 Demo.start 1%nat []).
  - vm_compute. lia.
  - lia.
  - intros i Hi. assert (i = O) by lia. subst i. vm_compute. discriminate.
  - vm_compute. reflexivity.
Defined.

(** C8. The connectivity probe makes exactly one request and always
    returns a dictionary: with [github_accessible] true on status 200,
    and otherwise with [github_accessible] false and an [error] text,
    whether the request was answered with another status or raised. *)
Theorem health_check_never_raises (settings : Settings) (network : Network)
        (w : world) :
  exists d : dict,
    health_check settings network w
    = (Ret d, mkWorld (S (requests w)) (draws w)
                      (trace w ++ [Get (github_base_url settings) None]))
    /\ match http network (requests w) (github_base_url settings) with
       | Response status _ _ =>
           if status =? 200
           then dict_get d "github_accessible" = Some (PyBool true)
           else dict_get d "github_accessible" = Some (PyBool false)
                /\ dict_get d "error" = Some (PyStr ("HTTP " ++ Str.of_Z status))
       | TransportFailure e =>
           dict_get d "github_accessible" = Some (PyBool false)
           /\ dict_get d "error" = Some (PyStr (str_exn e))
       end.
Proof.
  cbv [health_check mtry mbind session_get mret requests draws trace is_Exception].
  destruct (http network (match w with mkWorld n _ _ => n end)
                 (github_base_url settings)) as [status text headers|e].
  - destruct (status =? 200); eexists; split; try reflexivity.
    split; reflexivity.
  - eexists. split; [reflexivity|]. split; reflexivity.
Qed.

(** C2. With 1026 attempts configured (and no waiting, so that the
    run takes no time) and every request refused, [fetch_trending] does
    not make 1026 attempts: after the 1025th failure the handler
    evaluates [self.delay * (2 ** 1024)], the conversion of
    [2 ** 1024] to a float raises [OverflowError], and that error, not
    the error of the fetch, leaves the call. *)
Theorem retry_overflows_at_1026 :
  let settings := Demo.impatient 1026 in
  let network := Demo.network 1026 "" in
  let run := fetch_trending settings Demo.platform network None "daily" 25 Demo.start in
  (forall i, (i < 1026)%nat ->
     failure_of (http network i (_build_url settings None "daily"))
     = Some (ClientError "connection refused"))
  /\ fst run = Raise (OverflowError "int too large to convert to float")
  /\ requests (snd run) = 1025%nat.
Proof.
  intros settings network run.
  split.
  - intros i Hi. unfold network, Demo.network. cbn [http].
    apply Nat.ltb_lt in Hi. now rewrite Hi.
  - split; vm_compute; reflexivity.
Qed.

(** * Further properties *)

(** ** Every run of the retry loop *)

Section LoopFacts.

Variable settings : Settings.
Variable platform : Platform.
Variable network : Network.
Variable url : string.
Variable limit : Z.

(** What one pass through the loop body does, whatever the request
    brings. *)
Lemma attempt_body_cases (attempt : Z) (w : world) :
  (exists html_content headers nodes,
      http network (requests w) url = Response 200 html_content headers
      /\ html_parser platform html_content = Ret nodes
      /\ attempt_body settings platform network url limit attempt w
         = (Ret (Some (limited limit
                         (records_from settings platform 0
                            (entries platform html_content)))),
            after_fetch settings network url w))
  \/ (exists e,
         attempt_error platform (http network (requests w) url) = Some e
         /\ attempt_body settings platform network url limit attempt w
            = if attempt <? max_retries settings - 1 then
                match Float.of_int (2 ^ attempt) with
                | Ret _ => (Ret None,
                            after_backoff settings network attempt
                              (after_fetch settings network url w))
                | Raise e' => (Raise e', after_fetch settings network url w)
                end
              else (Raise e, after_fetch settings network url w)).
Proof.
  destruct (attempt_error platform (http network (requests w) url)) as [e|] eqn:E.
  - right. exists e. split; [reflexivity|]. now apply attempt_body_failure.
  - left. apply attempt_error_none in E.
    destruct E as (html & headers & nodes & Hh & Hp).
    exists html, headers, nodes. split; [exact Hh|]. split; [exact Hp|].
    now apply attempt_body_success with (headers := headers) (nodes := nodes).
Qed.

Lemma paced_app (a b : list event) :
  paced settings network url a -> paced settings network url b ->
  paced settings network url (a ++ b).
Proof.
  intros Ha Hb. induction Ha; cbn [app];
    [exact Hb|apply paced_backoff; auto|apply paced_request; auto].
Qed.

Lemma count_requests_app (a b : list event) :
  count_requests (a ++ b) = (count_requests a + count_requests b)%nat.
Proof.
  induction a as [|[s|u ua] a IH]; cbn [app count_requests]; [reflexivity| |];
    rewrite IH; reflexivity.
Qed.

Lemma chosen_agent_in_pool (d : nat) : In (chosen_agent network d) user_agents.
Proof.
  unfold chosen_agent. apply nth_In.
  apply Nat.mod_upper_bound. discriminate.
Qed.

(** What the loop has done when it is left, for every network: how
    many requests it made, where its result comes from, and the shape
    of its events. *)
Lemma attempts_loop_sound (remaining : nat) :
  forall (attempt : Z) (w : world),
    0 <= attempt ->
    attempt + Z.of_nat remaining = max_retries settings ->
    (1 <= remaining)%nat ->
    let run := attempts_loop settings platform network url limit remaining attempt w in
    (requests w + 1 <= requests (snd run) <= requests w + remaining)%nat
    /\ (exists added,
           trace (snd run) = (trace w ++ added)%list
           /\ paced settings network url added
           /\ count_requests added = (requests (snd run) - requests w)%nat)
    /\ match fst run with
       | Ret repositories =>
           exists html_content headers nodes,
             http network (requests (snd run) - 1) url
             = Response 200 html_content headers
             /\ html_parser platform html_content = Ret nodes
             /\ repositories
                = limited limit
                    (records_from settings platform 0 (entries platform html_content))
       | Raise e =>
           (attempt_error platform (http network (requests (snd run) - 1) url)
            = Some e
            /\ requests (snd run) = (requests w + remaining)%nat)
           \/ (e = OverflowError "int too large to convert to float"
               /\ attempt_error platform
                    (http network (requests (snd run) - 1) url) <> None
               /\ 1025 <= attempt + Z.of_nat (requests (snd run) - requests w))
       end.
Proof.
  induction remaining as [|remaining IH]; intros attempt w Ha Hk Hr; [lia|].
  cbn zeta. cbn [attempts_loop]. unfold mbind.
  assert (Hfetch : exists added,
             trace (after_fetch settings network url w) = (trace w ++ added)%list
             /\ paced settings network url added
             /\ count_requests added = 1%nat).
  { eexists. split; [reflexivity|]. split; [|reflexivity].
    apply paced_request; [apply chosen_agent_in_pool|constructor]. }
  destruct Hfetch as (added1 & Ht1 & Hp1 & Hc1).
  destruct (attempt_body_cases attempt w)
    as [(html & hs & nodes & Hh & Hp & Hb)|(e & He & Hb)];
    rewrite Hb; clear Hb.
  - unfold mret. cbn [fst snd requests after_fetch].
    split; [lia|]. split.
    + exists added1. rewrite <- Ht1. split; [reflexivity|]. split; [exact Hp1|lia].
    + exists html, hs, nodes. split; [|split; [exact Hp|reflexivity]].
      replace (S (requests w) - 1)%nat with (requests w) by lia. exact Hh.
  - destruct (attempt <? max_retries settings - 1) eqn:El.
    + apply Z.ltb_lt in El.
      destruct (Float.of_int (2 ^ attempt)) as [y|e'] eqn:Ey.
      * set (w1 := after_backoff settings network attempt
                     (after_fetch settings network url w)).
        assert (Hw1 : requests w1 = S (requests w)) by reflexivity.
        specialize (IH (attempt + 1) w1).
        destruct IH as (Hreq & (added & Ht & Hp & Hc) & Hres); try lia.
        cbv zeta in Hreq, Ht, Hc, Hres.
        split; [lia|]. split.
        -- exists (added1 ++ [Sleep (SFmul Float.prec Float.emax
                                       (base_delay settings attempt)
                                       (uniform_value network half one_and_half
                                          (draws (after_fetch settings network url w))))]
                   ++ added)%list.
           split.
           ++ rewrite Ht. unfold w1. cbn [trace after_backoff].
              rewrite Ht1. now rewrite <- !app_assoc.
           ++ split.
              ** apply paced_app; [exact Hp1|].
                 cbn [app]. now constructor.
              ** rewrite !count_requests_app. cbn [count_requests]. lia.
        -- destruct (fst (attempts_loop settings platform network url limit
                            remaining (attempt + 1) w1)) as [l|e0].
           ++ exact Hres.
           ++ destruct Hres as [[H1 H2]|(H1 & H2 & H3)]; [left|right].
              ** split; [exact H1|lia].
              ** split; [exact H1|]. split; [exact H2|lia].
      * cbn [fst snd requests after_fetch].
        split; [lia|]. split.
        -- exists added1. rewrite <- Ht1. split; [reflexivity|]. split; [exact Hp1|lia].
        -- right.
           replace (S (requests w) - 1)%nat with (requests w) by lia.
           assert (Hge : 1024 <= attempt).
           { destruct (Z.le_gt_cases 1024 attempt) as [H|H]; [exact H|].
             destruct (of_int_pow2 attempt) as [y Hy]; [lia|]. congruence. }
           split.
           { unfold Float.of_int in Ey.
             destruct (binary_normalize Float.prec Float.emax (2 ^ attempt) 0 false);
               congruence. }
           split; [congruence|lia].
    + apply Z.ltb_ge in El.
      cbn [fst snd requests after_fetch].
      split; [lia|]. split.
      * exists added1. rewrite <- Ht1. split; [reflexivity|]. split; [exact Hp1|lia].
      * left. replace (S (requests w) - 1)%nat with (requests w) by lia.
        split; [exact He|lia].
Qed.

End LoopFacts.

(** ** Every fetch *)

Lemma fetch_without_attempts (settings : Settings) (platform : Platform)
      (network : Network) (language : option string) (since : string) (limit : Z)
      (w : world) :
  max_retries settings <= 0 ->
  fetch_trending settings platform network language since limit w = (Ret [], w).
Proof.
  intros H. unfold fetch_trending.
  replace (Z.to_nat (max_retries settings)) with O by lia. reflexivity.
Qed.

(** Every run of [fetch_trending]: its requests, its events, and where
    its result comes from. *)
Lemma fetch_trending_sound (settings : Settings) (platform : Platform)
      (network : Network) (language : option string) (since : string)
      (limit : Z) (w : world) :
  let url := _build_url settings language since in
  let run := fetch_trending settings platform network language since limit w in
  (requests w + (if (1 <=? max_retries settings)%Z then 1 else 0)
   <= requests (snd run)
   <= requests w + Z.to_nat (max_retries settings))%nat
  /\ (exists added,
         trace (snd run) = (trace w ++ added)%list
         /\ paced settings network url added
         /\ count_requests added = (requests (snd run) - requests w)%nat)
  /\ match fst run with
     | Ret repositories =>
         (max_retries settings <= 0 /\ repositories = [] /\ snd run = w)
         \/ (exists html_content headers nodes,
                http network (requests (snd run) - 1) url
                = Response 200 html_content headers
                /\ html_parser platform html_content = Ret nodes
                /\ repositories
                   = limited limit
                       (records_from settings platform 0
                          (entries platform html_content)))
     | Raise e =>
         (attempt_error platform (http network (requests (snd run) - 1) url)
          = Some e
          /\ requests (snd run)
             = (requests w + Z.to_nat (max_retries settings))%nat)
         \/ (e = OverflowError "int too large to convert to float"
             /\ attempt_error platform
                  (http network (requests (snd run) - 1) url) <> None
             /\ (1025 <= requests (snd run) - requests w)%nat)
     end.
Proof.
  intros url run. unfold run.
  destruct (Z.le_gt_cases (max_retries settings) 0) as [E|E].
  - rewrite fetch_without_attempts by lia. cbn [fst snd].
    replace (1 <=? max_retries settings) with false
      by (symmetry; apply Z.leb_gt; lia).
    split; [lia|]. split.
    + exists []. rewrite app_nil_r. split; [reflexivity|].
      split; [constructor|cbn; lia].
    + left. auto.
  - replace (1 <=? max_retries settings) with true
      by (symmetry; apply Z.leb_le; lia).
    pose proof (attempts_loop_sound settings platform network url limit
                  (Z.to_nat (max_retries settings)) 0 w) as H.
    destruct H as (H1 & H2 & H3); try lia.
    cbv zeta in H1, H2, H3. unfold fetch_trending. fold url.
    split; [exact H1|]. split; [exact H2|].
    destruct (fst (attempts_loop settings platform network url limit
                     (Z.to_nat (max_retries settings)) 0 w)) as [l|e].
    + right. exact H3.
    + destruct H3 as [H|(Ha & Hb & Hc)]; [left; exact H|right].
      split; [exact Ha|]. split; [exact Hb|lia].
Qed.

(** X1. Whatever the network does, [fetch_trending] makes at most
    [max_retries] requests, and at least one when [max_retries] is
    positive. *)
Theorem fetch_request_bound (settings : Settings) (platform : Platform)
        (network : Network) (language : option string) (since : string)
        (limit : Z) (w : world) :
  let run := fetch_trending settings platform network language since limit w in
  (requests w + (if (1 <=? max_retries settings)%Z then 1 else 0)
   <= requests (snd run)
   <= requests w + Z.to_nat (max_retries settings))%nat.
Proof.
  apply (fetch_trending_sound settings platform network language since limit w).
Qed.

(** X2. Whatever the network does, a list [fetch_trending] returns is
    the (limited) extraction of the page its last request received with
    status 200 and the parser accepted, or is empty because no attempt
    was configured.  An error it raises has one of three origins: the
    failure of its last request, or the parser's rejection of the page
    that request received with status 200, in both cases after all
    attempts; or the overflow of the backoff after at least 1025
    failed attempts.  Nothing of an earlier response reaches the
    caller. *)
Theorem fetch_result_origin (settings : Settings) (platform : Platform)
        (network : Network) (language : option string) (since : string)
        (limit : Z) (w : world) :
  let url := _build_url settings language since in
  let run := fetch_trending settings platform network language since limit w in
  let last := http network (requests (snd run) - 1) url in
  match fst run with
  | Ret repositories =>
      (max_retries settings <= 0 /\ repositories = [] /\ snd run = w)
      \/ (exists html_content headers nodes,
             last = Response 200 html_content headers
             /\ html_parser platform html_content = Ret nodes
             /\ repositories
                = limited limit
                    (records_from settings platform 0 (entries platform html_content)))
  | Raise e =>
      ((failure_of last = Some e
        \/ (exists html_content headers,
               last = Response 200 html_content headers
               /\ html_parser platform html_content = Raise e))
       /\ requests (snd run)
          = (requests w + Z.to_nat (max_retries settings))%nat)
      \/ (e = OverflowError "int too large to convert to float"
          /\ attempt_error platform last <> None
          /\ (1025 <= requests (snd run) - requests w)%nat)
  end.
Proof.
  intros url run last.
  pose proof (fetch_trending_sound settings platform network language since
                limit w) as (_ & _ & H).
  cbv zeta in H. fold url run last in H.
  destruct (fst run) as [repositories|e]; [exact H|].
  destruct H as [[He Hr]|H]; [left|right; exact H].
  split; [|exact Hr].
  unfold attempt_error, rejection_of in He.
  destruct (failure_of last) as [e0|] eqn:Ef; [left; exact He|right].
  destruct last as [status text headers|e0]; [|discriminate].
  unfold failure_of in Ef.
  destruct (status =? 200) eqn:Es; [|discriminate].
  apply Z.eqb_eq in Es. subst status.
  destruct (html_parser platform text) as [nodes|e1] eqn:Ep; [discriminate|].
  injection He as <-. now exists text, headers.
Qed.

(** X3. With no attempt configured ([max_retries <= 0]) [fetch_trending]
    returns the empty list at once: no request, no sleep, no random
    draw, no error. *)
Theorem fetch_without_attempts_is_empty (settings : Settings) (platform : Platform)
        (network : Network) (language : option string) (since : string)
        (limit : Z) (w : world) :
  max_retries settings <= 0 ->
  fetch_trending settings platform network language since limit w = (Ret [], w).
Proof. apply fetch_without_attempts. Qed.

Lemma fetch_without_attempts_is_empty_witness :
  max_retries (Demo.impatient 0) <= 0
  /\ fetch_trending (Demo.impatient 0) Demo.platform (Demo.network 0 Demo.drifted_html)
       None "daily" 25 Demo.start
     = (Ret [], Demo.start).
Proof.
  split; [cbn; lia|].
  apply (fetch_without_attempts_is_empty (Demo.impatient 0)). cbn. lia.
Defined.

(** X4. Whatever the network does, the events of a fetch have one
    shape: every request goes to the address [_build_url] gives, with a
    user agent of the pool, and comes right after its pacing sleep of
    [uniform(min_delay, max_delay)]; the other events are backoff
    sleeps; and there are as many requests in the trace as the fetch
    counts. *)
Theorem fetch_events_shape (settings : Settings) (platform : Platform)
        (network : Network) (language : option string) (since : string)
        (limit : Z) (w : world) :
  let run := fetch_trending settings platform network language since limit w in
  exists added,
    trace (snd run) = (trace w ++ added)%list
    /\ paced settings network (_build_url settings language since) added
    /\ count_requests added = (requests (snd run) - requests w)%nat.
Proof.
  apply (fetch_trending_sound settings platform network language since limit w).
Qed.

(** ** Limits outside [1, 100] *)

Lemma limited_kept (limit : Z) (l : list TrendingRepository) :
  limited limit l = firstn (kept limit (List.length l)) l.
Proof.
  unfold limited, kept, slice_to.
  destruct (limit =? 0) eqn:E0; cbn [negb andb].
  - symmetry. apply firstn_all.
  - apply Z.eqb_neq in E0.
    destruct (0 <? limit) eqn:Ep.
    + apply Z.ltb_lt in Ep.
      replace (0 <=? limit) with true by (symmetry; apply Z.leb_le; lia).
      destruct (limit <? Z.of_nat (List.length l)) eqn:El.
      * apply Z.ltb_lt in El. f_equal. lia.
      * apply Z.ltb_ge in El.
        replace (Nat.min (Z.to_nat limit) (List.length l)) with (List.length l) by lia.
        symmetry. apply firstn_all.
    + apply Z.ltb_ge in Ep.
      replace (limit <? Z.of_nat (List.length l)) with true
        by (symmetry; apply Z.ltb_lt; lia).
      replace (0 <=? limit) with false by (symmetry; apply Z.leb_gt; lia).
      reflexivity.
Qed.

(** X5. [fetch_trending] accepts any [limit]: a successful fetch
    (a page received with status 200 that the parser accepts) returns
    the first [kept limit N] of the [N] extracted records.  A
    limit of 0 keeps all of them, a positive limit keeps [min limit N],
    and a negative limit drops the last [-limit] records. *)
Theorem fetch_limit_semantics
        (settings : Settings) (platform : Platform) (network : Network)
        (language : option string) (since : string) (limit : Z) (w : world)
        (j : nat) (html_content : string) (headers : list (string * string))
        (nodes : list Bs4.node) :
  (j < Z.to_nat (max_retries settings))%nat ->
  (j <= 1024)%nat ->
  (forall i, (i < j)%nat ->
     attempt_error platform
       (http network (requests w + i) (_build_url settings language since))
     <> None) ->
  http network (requests w + j) (_build_url settings language since)
  = Response 200 html_content headers ->
  html_parser platform html_content = Ret nodes ->
  let records := records_from settings platform 0 (entries platform html_content) in
  let result := fst (fetch_trending settings platform network language since limit w) in
  result = Ret (firstn (kept limit (List.length records)) records)
  /\ (limit = 0 -> result = Ret records)
  /\ (limit < 0 ->
      result = Ret (firstn (List.length records - Z.to_nat (- limit)) records)).
Proof.
  intros Hj Hb Hf Hs Hp records result.
  assert (H : result = Ret (firstn (kept limit (List.length records)) records)).
  { unfold result. erewrite fetch_after_failures; eauto.
    cbn [fst]. now rewrite limited_kept. }
  split; [exact H|]. split; intros Hl; rewrite H; f_equal.
  - subst limit. unfold kept. cbn. apply firstn_all.
  - unfold kept.
    replace (limit =? 0) with false by (symmetry; apply Z.eqb_neq; lia).
    replace (0 <? limit) with false by (symmetry; apply Z.ltb_ge; lia).
    f_equal. lia.
Qed.

(** On the page of twenty entries a limit of -3 leaves seventeen
    records. *)
Lemma fetch_limit_semantics_witness :
  let records :=
    records_from Demo.settings Demo.platform 0
      (entries Demo.platform (Demo.page_html Demo.twenty_page)) in
  let result :=
    fst (fetch_trending Demo.settings Demo.platform
           (Demo.network 0 (Demo.page_html Demo.twenty_page))
           None "daily" (-3) Demo.start) in
  (List.length records = 20%nat /\ kept (-3) 20 = 17%nat)
  /\ result = Ret (firstn (kept (-3) (List.length records)) records)
  /\ (-3 = 0 -> result = Ret records)
  /\ (-3 < 0 ->
      result = Ret (firstn (List.length records - Z.to_nat (- (-3))) records)).
Proof.
  split; [split; vm_compute; reflexivity|].
  apply (fetch_limit_semantics Demo.settings Demo.platform
           (Demo.network 0 (Demo.page_html Demo.twenty_page))
           None "daily" (-3) Demo.start 0 (Demo.page_html Demo.twenty_page) []
           (Demo.page_tree Demo.twenty_page)).
  - vm_compute. lia.
  - lia.
  - intros i Hi. lia.
  - vm_compute. reflexivity.
  - vm_compute. reflexivity.
Defined.

(** ** More on the number/unit parser *)

Lemma lower_char_idempotent (c : ascii) :
  Str.lower_char (Str.lower_char c) = Str.lower_char c.
Proof. each_char c; reflexivity. Qed.

Lemma lower_idempotent (s : string) : Str.lower (Str.lower s) = Str.lower s.
Proof.
  induction s as [|c s IH]; simpl; [reflexivity|].
  now rewrite lower_char_idempotent, IH.
Qed.

Lemma lower_char_is_comma (c : ascii) :
  Ascii.eqb (Str.lower_char c) "," = Ascii.eqb c ",".
Proof. each_char c; reflexivity. Qed.

Lemma remove_comma_lower (s : string) :
  Str.remove "," (Str.lower s) = Str.lower (Str.remove "," s).
Proof.
  induction s as [|c s IH]; simpl; [reflexivity|].
  rewrite lower_char_is_comma.
  destruct (Ascii.eqb c ","); simpl; now rewrite IH.
Qed.

Lemma remove_idempotent (x : ascii) (s : string) :
  Str.remove x (Str.remove x s) = Str.remove x s.
Proof.
  induction s as [|c s IH]; simpl; [reflexivity|].
  destruct (Ascii.eqb c x) eqn:E; simpl; [exact IH|].
  now rewrite E, IH.
Qed.

Lemma lower_char_not_upper (x : ascii) (c : ascii) :
  Str.between 65 90 x = true -> Ascii.eqb (Str.lower_char c) x = false.
Proof. each_char x; try discriminate; intros _; each_char c; reflexivity. Qed.

Lemma endswith_lower_upper (s : string) (x : ascii) :
  Str.between 65 90 x = true -> Str.endswith (Str.lower s) x = false.
Proof.
  intros Hx.
  rewrite (endswith_lower s x (fun _ => false))
    by (intros c; now apply lower_char_not_upper).
  induction s as [|c s IH]; [reflexivity|].
  destruct s as [|c' s']; [reflexivity|exact IH].
Qed.

Lemma scaled_value_lower (text : string) :
  Reference.scaled_value (Str.lower text) = Reference.scaled_value text.
Proof.
  unfold Reference.scaled_value, Reference.unit_suffix, Reference.strip_separators.
  rewrite remove_comma_lower.
  set (t := Str.remove "," text).
  rewrite endswith_lower_k, endswith_lower_m.
  rewrite !endswith_lower_upper by reflexivity.
  rewrite !orb_false_r.
  destruct (Str.endswith t "k" || Str.endswith t "K")%bool;
    [|destruct (Str.endswith t "m" || Str.endswith t "M")%bool];
    rewrite ?drop_last_lower, tokens_lower; reflexivity.
Qed.

Lemma scaled_value_remove (text : string) :
  Reference.scaled_value (Str.remove "," text) = Reference.scaled_value text.
Proof.
  unfold Reference.scaled_value, Reference.strip_separators.
  now rewrite remove_idempotent.
Qed.

(** X6. The parser reads a text the same way with or without its
    commas, wherever they stand, and whatever the case of its
    letters. *)
Theorem parse_number_ignores_commas_and_case (text : string) :
  _parse_number (Str.remove "," text) = _parse_number text
  /\ _parse_number (Str.lower text) = _parse_number text.
Proof.
  rewrite !parse_number_unfold, scaled_value_remove, scaled_value_lower.
  split; reflexivity.
Qed.

(** ** Whole numbers are read exactly *)

Lemma digits2_pos_lower (p : positive) :
  2 ^ (Zpos (digits2_pos p) - 1) <= Zpos p.
Proof.
  induction p as [p IH|p IH|]; cbn [digits2_pos].
  - rewrite Pos2Z.inj_succ.
    replace (Z.succ (Zpos (digits2_pos p)) - 1) with (Z.succ (Zpos (digits2_pos p) - 1)) by lia.
    rewrite Z.pow_succ_r by lia. lia.
  - rewrite Pos2Z.inj_succ.
    replace (Z.succ (Zpos (digits2_pos p)) - 1) with (Z.succ (Zpos (digits2_pos p) - 1)) by lia.
    rewrite Z.pow_succ_r by lia. lia.
  - reflexivity.
Qed.

Lemma digits2_pos_bound (p : positive) :
  Zpos p < 2 ^ 53 -> Zpos (digits2_pos p) <= 53.
Proof.
  intros H.
  destruct (Z.le_gt_cases (Zpos (digits2_pos p)) 53) as [Hle|Hgt]; [exact Hle|].
  exfalso.
  pose proof (digits2_pos_lower p) as Hl.
  assert (2 ^ 53 <= 2 ^ (Zpos (digits2_pos p) - 1))
    by (apply Z.pow_le_mono_r; lia).
  lia.
Qed.

Lemma iter_xO_spec (k p : positive) :
  digits2_pos (Pos.iter xO p k) = (digits2_pos p + k)%positive
  /\ Zpos (Pos.iter xO p k) = Zpos p * 2 ^ Zpos k.
Proof.
  induction k as [|k IH] using Pos.peano_ind.
  - cbn. split; [lia|]. lia.
  - rewrite Pos.iter_succ. destruct IH as [IH1 IH2].
    cbn [digits2_pos]. rewrite IH1. split; [lia|].
    rewrite Pos2Z.inj_xO, IH2, Pos2Z.inj_succ, Z.pow_succ_r by lia. lia.
Qed.

Lemma shr_fexp_canonical (m : positive) (e : Z) :
  digits2_pos m = 53%positive -> -1074 <= e <= 971 ->
  shr_fexp Float.prec Float.emax (Zpos m) e loc_Exact
  = (Build_shr_record (Zpos m) false false, e).
Proof.
  intros Hd He.
  unfold shr_fexp, shr, Zdigits2. rewrite Hd.
  unfold fexp, emin, Float.prec, Float.emax.
  replace (Z.max (53 + e - 53) (3 - 1024 - 53) - e) with 0 by lia.
  reflexivity.
Qed.

(** A mantissa of 53 bits with an exponent in range is not rounded. *)
Lemma binary_round_aux_canonical (s : bool) (m : positive) (e : Z) :
  digits2_pos m = 53%positive -> -1074 <= e <= 971 ->
  binary_round_aux Float.prec Float.emax s (Zpos m) e loc_Exact
  = S754_finite s m e.
Proof.
  intros Hd He.
  pose proof (shr_fexp_canonical m e Hd He) as Hs.
  unfold binary_round_aux. rewrite Hs.
  cbn [shr_m loc_of_shr_record round_nearest_even]. rewrite Hs.
  cbn [shr_m].
  replace (e <=? Float.emax - Float.prec) with true
    by (symmetry; apply Z.leb_le; unfold Float.emax, Float.prec; lia).
  reflexivity.
Qed.

(** The float read from a whole number below [2 ** 53]. *)
Lemma of_decimal_whole (p : positive) :
  Zpos p < 2 ^ 53 ->
  exists m e,
    Float.of_decimal false (Zpos p) 0 = S754_finite false m e
    /\ digits2_pos m = 53%positive
    /\ -52 <= e <= 0
    /\ Zpos m = Zpos p * 2 ^ (- e).
Proof.
  intros Hp.
  pose proof (digits2_pos_bound p Hp) as Hd.
  unfold Float.of_decimal.
  change (0 <=? 0) with true. cbv iota.
  change (Z.to_pos (10 ^ 0)) with 1%positive. rewrite Pos.mul_1_r.
  unfold binary_round.
  assert (Hf : fexp Float.prec Float.emax (Zpos (digits2_pos p) + 0)
               = Zpos (digits2_pos p) - 53).
  { unfold fexp, emin, Float.prec, Float.emax. lia. }
  rewrite Hf. unfold shl_align.
  destruct (Zpos (digits2_pos p) - 53 - 0) as [|k|k] eqn:Ek; try lia.
  - exists p, 0.
    assert (Hd53 : digits2_pos p = 53%positive) by lia.
    rewrite binary_round_aux_canonical by (auto; lia).
    repeat split; auto; lia.
  - destruct (iter_xO_spec k p) as [H1 H2].
    exists (Pos.iter xO p k), (Zpos (digits2_pos p) - 53).
    assert (Hd53 : digits2_pos (Pos.iter xO p k) = 53%positive) by lia.
    rewrite binary_round_aux_canonical by (auto; lia).
    repeat split; auto; try lia.
    rewrite H2. f_equal. f_equal. lia.
Qed.

Lemma shift_out_52 (m : positive) :
  iter_pos shr_1 52
    (Build_shr_record (Zpos (4503599627370496 * m)) false false)
  = Build_shr_record (Zpos m) false false.
Proof. reflexivity. Qed.

Lemma digits2_pos_shift_52 (m : positive) :
  digits2_pos (4503599627370496 * m) = (digits2_pos m + 52)%positive.
Proof. cbn [Pos.mul digits2_pos]. lia. Qed.

(** Multiplying by the float 1 changes nothing. *)
Lemma SFmul_one (m : positive) (e : Z) :
  digits2_pos m = 53%positive -> -52 <= e <= 0 ->
  SFmul Float.prec Float.emax (S754_finite false m e)
        (S754_finite false 4503599627370496 (-52))
  = S754_finite false m e.
Proof.
  intros Hd He. unfold SFmul. cbn [xorb].
  rewrite Pos.mul_comm.
  assert (Hs : shr_fexp Float.prec Float.emax
                 (Zpos (4503599627370496 * m)) (e + -52) loc_Exact
               = (Build_shr_record (Zpos m) false false, e)).
  { unfold shr_fexp, Zdigits2. rewrite digits2_pos_shift_52, Hd.
    unfold fexp, emin, Float.prec, Float.emax.
    replace (Z.max (Zpos (53 + 52) + (e + -52) - 53) (3 - 1024 - 53) - (e + -52))
      with 52 by lia.
    unfold shr. cbn [shr_record_of_loc]. rewrite shift_out_52.
    f_equal. lia. }
  unfold binary_round_aux. rewrite Hs.
  cbn [shr_m loc_of_shr_record round_nearest_even].
  rewrite shr_fexp_canonical by (auto; lia).
  cbn [shr_m].
  replace (e <=? Float.emax - Float.prec) with true
    by (symmetry; apply Z.leb_le; unfold Float.emax, Float.prec; lia).
  reflexivity.
Qed.

Lemma digit_char_facts (c : ascii) :
  Str.isdigit c = true ->
  Ascii.eqb c "," = false
  /\ Float.classify c = Float.TDigit (Z.of_N (Str.code c) - 48)
  /\ 0 <= Z.of_N (Str.code c) - 48
  /\ Ascii.eqb c "k" = false /\ Ascii.eqb c "K" = false
  /\ Ascii.eqb c "m" = false /\ Ascii.eqb c "M" = false.
Proof.
  each_char c; vm_compute; intros H; try discriminate;
    repeat split; discriminate.
Qed.

Lemma decimal_value_from_digits (s : string) :
  forall acc,
    decimal_value_from acc s
    = fold_left (fun a d => 10 * a + d) (counter_digits s) acc.
Proof.
  induction s as [|c s IH]; intros acc;
    cbn [decimal_value_from counter_digits]; [reflexivity|].
  destruct (Str.isdigit c); cbn [fold_left]; apply IH.
Qed.

Lemma decimal_value_from_nonneg (s : string) :
  forall acc, 0 <= acc -> 0 <= decimal_value_from acc s.
Proof.
  induction s as [|c s IH]; intros acc Ha; cbn [decimal_value_from]; [exact Ha|].
  destruct (Str.isdigit c) eqn:E; [|now apply IH].
  apply IH. destruct (digit_char_facts c E) as (_ & _ & H & _). lia.
Qed.

Lemma tokens_of_counter (text : string) :
  digits_and_commas text = true ->
  Float.tokens (Str.remove "," text) = map Float.TDigit (counter_digits text).
Proof.
  unfold Float.tokens.
  induction text as [|c text IH]; simpl; [reflexivity|].
  intros H. apply andb_true_iff in H. destruct H as [Hc Ht].
  destruct (Str.isdigit c) eqn:Ed.
  - destruct (digit_char_facts c Ed) as (Hn & Hcl & _).
    rewrite Hn. simpl. now rewrite Hcl, IH.
  - simpl in Hc. rewrite Hc. now apply IH.
Qed.

Lemma endswith_counter (text : string) (x : ascii) :
  digits_and_commas text = true ->
  (forall c, Str.isdigit c = true -> Ascii.eqb c x = false) ->
  Str.endswith (Str.remove "," text) x = false.
Proof.
  intros H Hx.
  induction text as [|c text IH]; simpl; [reflexivity|].
  simpl in H. apply andb_true_iff in H. destruct H as [Hc Ht].
  destruct (Ascii.eqb c ",") eqn:Ec; [now apply IH|].
  rewrite orb_false_r in Hc.
  cbn [Str.endswith].
  destruct (Str.remove "," text) eqn:Er; [now apply Hx|].
  now apply IH.
Qed.

Lemma drop_underscores_digits (ds : list Z) :
  forall prev,
    prev <> Float.TUnderscore ->
    Float.drop_underscores prev (map Float.TDigit ds) = Some (map Float.TDigit ds).
Proof.
  induction ds as [|d ds IH]; intros prev Hp; simpl.
  - destruct prev; try reflexivity. now contradiction Hp.
  - rewrite IH by discriminate.
    destruct prev; try reflexivity.
Qed.

Lemma rstrip_space_digits (ds : list Z) :
  Float.rstrip_space (map Float.TDigit ds) = map Float.TDigit ds.
Proof.
  induction ds as [|d ds IH]; simpl; [reflexivity|].
  rewrite IH. destruct (map Float.TDigit ds); reflexivity.
Qed.

Lemma take_digits_digits (ds : list Z) :
  Float.take_digits (map Float.TDigit ds) = (ds, []).
Proof.
  induction ds as [|d ds IH]; simpl; [reflexivity|]. now rewrite IH.
Qed.

Lemma parse_tokens_digits (d : Z) (ds : list Z) :
  Float.parse_tokens (map Float.TDigit (d :: ds))
  = Some (Float.of_decimal false (Float.digits_value (d :: ds)) 0).
Proof.
  unfold Float.parse_tokens.
  rewrite drop_underscores_digits by discriminate.
  cbn [map Float.lstrip_space].
  change (Float.TDigit d :: map Float.TDigit ds) with (map Float.TDigit (d :: ds)).
  rewrite rstrip_space_digits.
  cbn [map Float.take_sign].
  change (Float.TDigit d :: map Float.TDigit ds) with (map Float.TDigit (d :: ds)).
  assert (Hw : forall w, Float.is_word w (map Float.TDigit (d :: ds)) = false)
    by reflexivity.
  rewrite !Hw. cbn [orb].
  unfold Float.parse_decimal. rewrite take_digits_digits.
  rewrite app_nil_r. reflexivity.
Qed.

(** Digits and thousands separators below [2 ** 53] are read exactly. *)
Lemma parse_number_digits (text : string) :
  digits_and_commas text = true ->
  decimal_value text < 2 ^ 53 ->
  _parse_number text = Ret (decimal_value text).
Proof.
  intros Hc Hv.
  rewrite parse_number_unfold.
  unfold Reference.scaled_value, Reference.unit_suffix, Reference.strip_separators.
  rewrite !endswith_counter
    by (auto; intros c Hd; now destruct (digit_char_facts c Hd) as (_&_&_&?&?&?&?)).
  cbn [orb]. rewrite tokens_of_counter by exact Hc.
  unfold decimal_value in *. rewrite decimal_value_from_digits in *.
  pose proof (decimal_value_from_nonneg text 0 (Z.le_refl 0)) as Hn.
  rewrite decimal_value_from_digits in Hn.
  destruct (counter_digits text) as [|d ds]; [reflexivity|].
  rewrite parse_tokens_digits. fold (Float.digits_value (d :: ds)) in *.
  change (binary_normalize Float.prec Float.emax 1 0 false)
    with (S754_finite false 4503599627370496 (-52)).
  destruct (Float.digits_value (d :: ds)) as [|p|p] eqn:Ep; [reflexivity| |lia].
  destruct (of_decimal_whole p Hv) as (m & e & Hx & Hd & He & Hm).
  rewrite Hx, SFmul_one by assumption.
  unfold Float.to_int, try_except. f_equal.
  destruct (0 <=? e) eqn:E0.
  - apply Z.leb_le in E0. assert (e = 0) by lia. subst e.
    rewrite Hm. cbn. lia.
  - rewrite Hm. apply Z.div_mul. apply Z.pow_nonzero; lia.
Qed.

(** X7. A counter text of decimal digits and thousands separators whose
    number is below [2 ** 53] is read as exactly that number; a text
    without any digit is read as 0. *)
Theorem parse_number_exact (text : string) :
  digits_and_commas text = true ->
  decimal_value text < 2 ^ 53 ->
  _parse_number text = Ret (decimal_value text).
Proof. exact (parse_number_digits text). Qed.

(** The largest count that is certainly read exactly, and the first one
    that is not. *)
Lemma parse_number_exact_witness :
  (digits_and_commas "9,007,199,254,740,991" = true
   /\ decimal_value "9,007,199,254,740,991" < 2 ^ 53)
  /\ _parse_number "9,007,199,254,740,991" = Ret (decimal_value "9,007,199,254,740,991").
Proof.
  assert (H1 : digits_and_commas "9,007,199,254,740,991" = true) by reflexivity.
  assert (H2 : decimal_value "9,007,199,254,740,991" < 2 ^ 53)
    by (vm_compute; reflexivity).
  split; [split; assumption|].
  apply (parse_number_exact "9,007,199,254,740,991" H1 H2).
Defined.

Example parse_number_rounds_above_2_53 :
  _parse_number "9,007,199,254,740,993" = Ret 9007199254740992.
Proof. vm_compute. reflexivity. Qed.

(** ** The counter of new stars *)

Lemma prefix_app (a b : string) : String.prefix a (a ++ b) = true.
Proof.
  induction a as [|c a IH]; simpl; [now destruct b|].
  destruct (ascii_dec c c) as [_|H]; [exact IH|now contradiction H].
Qed.

Lemma contains_prefix (sub s : string) :
  String.prefix sub s = true -> Str.contains sub s = true.
Proof. intros H. destruct s; cbn [Str.contains]; rewrite H; reflexivity. Qed.

Lemma contains_app (sub pre s : string) :
  Str.contains sub s = true -> Str.contains sub (pre ++ s) = true.
Proof.
  intros H. induction pre as [|c pre IH]; [exact H|].
  cbn [append Str.contains]. rewrite IH. apply orb_true_r.
Qed.

Lemma strip_prefix_app (pre s r : string) :
  Re.strip_prefix pre s = Some r -> s = pre ++ r.
Proof.
  revert s. induction pre as [|a pre IH]; intros s; simpl.
  - destruct s; now intros [= <-].
  - destruct s as [|b s]; [discriminate|].
    destruct (Ascii.eqb a b) eqn:E; [|discriminate].
    apply Ascii.eqb_eq in E. subst b. intros H. now rewrite (IH _ H).
Qed.

Lemma lstrip_by_suffix (p : ascii -> bool) (s : string) :
  exists pre, s = pre ++ Str.lstrip_by p s.
Proof.
  induction s as [|c s [pre IH]]; [now exists ""|].
  simpl. destruct (p c).
  - exists (String c pre). simpl. now rewrite <- IH.
  - now exists "".
Qed.

Lemma spaces1_suffix (s r : string) :
  Re.spaces1 s = Some r -> exists pre, s = pre ++ r.
Proof.
  unfold Re.spaces1. destruct s as [|c s]; [discriminate|].
  destruct (Str.isspace c); [|discriminate].
  intros [= <-]. destruct (lstrip_by_suffix Str.isspace s) as [pre H].
  exists (String c pre). simpl. now rewrite <- H.
Qed.

Lemma group_tail_app (s : string) :
  forall m rest, Re.group_tail s = (m, rest) -> s = m ++ rest.
Proof.
  induction s as [|c s IH]; intros m rest; cbn [Re.group_tail].
  - now intros [= <- <-].
  - destruct (Str.isdigit c).
    + destruct (Re.group_tail s) as [m' rest'].
      intros [= <- <-]. simpl. now rewrite <- (IH _ _ eq_refl).
    + destruct (Ascii.eqb c ","); [|now intros [= <- <-]].
      destruct s as [|d s']; [now intros [= <- <-]|].
      destruct (Str.isdigit d); [|now intros [= <- <-]].
      destruct (Re.group_tail (String d s')) as [m' rest'].
      intros [= <- <-]. simpl. now rewrite <- (IH _ _ eq_refl).
Qed.

Lemma stars_today_here_today (s g : string) :
  Re.stars_today_here s = Some g -> Str.contains "today" s = true.
Proof.
  unfold Re.stars_today_here.
  destruct s as [|c s]; [discriminate|].
  destruct (Str.isdigit c); [|discriminate].
  destruct (Re.group_tail s) as [m rest] eqn:Eg.
  destruct (Re.spaces1 rest) as [r1|] eqn:E1; [|discriminate].
  destruct (Re.strip_prefix "star" r1) as [r2|] eqn:E2; [|discriminate].
  match goal with
  | |- context [Re.spaces1 ?x] => destruct (Re.spaces1 x) as [r4|] eqn:E3
  end; [|discriminate].
  destruct (Re.strip_prefix "today" r4) as [r5|] eqn:E4; [|discriminate].
  intros _.
  apply strip_prefix_app in E4.
  assert (H4 : Str.contains "today" r4 = true).
  { apply contains_prefix. rewrite E4. apply prefix_app. }
  apply spaces1_suffix in E3. destruct E3 as [p3 E3].
  assert (H2 : Str.contains "today" r2 = true).
  { destruct r2 as [|x r2'].
    - rewrite E4 in E3. destruct p3; discriminate E3.
    - assert (Hr : exists q, String x r2' = q ++ r4).
      { destruct (Ascii.eqb x "s") eqn:Ex.
        - apply Ascii.eqb_eq in Ex. subst x. exists (String "s" p3).
          simpl. now rewrite <- E3.
        - exists p3. revert E3 Ex. each_char x; intros E3 Ex; try exact E3.
          vm_compute in Ex. discriminate Ex. }
      destruct Hr as [q ->]. now apply contains_app. }
  apply strip_prefix_app in E2.
  apply spaces1_suffix in E1. destruct E1 as [p1 E1].
  apply group_tail_app in Eg.
  rewrite Eg, E1, E2.
  change (String c (m ++ p1 ++ "star" ++ r2))
    with (String c "" ++ (m ++ p1 ++ "star" ++ r2)).
  apply contains_app, contains_app, contains_app.
  apply (contains_app "today" "star" r2). exact H2.
Qed.

Lemma stars_today_search_today (s g : string) :
  Re.stars_today_search s = Some g -> Str.contains "today" s = true.
Proof.
  induction s as [|c s IH]; cbn [Re.stars_today_search].
  - destruct (Re.stars_today_here "") eqn:E; [|discriminate].
    intros _. eapply stars_today_here_today; eauto.
  - destruct (Re.stars_today_here (String c s)) eqn:E.
    + intros _. eapply stars_today_here_today; eauto.
    + intros H. cbn [Str.contains]. rewrite (IH H). apply orb_true_r.
Qed.

Lemma parse_stars_today_needs_today (article : Bs4.Tag) :
  no_today article -> _parse_stars_today article = Ret 0.
Proof.
  unfold no_today, _parse_stars_today.
  destruct (Bs4.find article _) as [el|]; [|reflexivity].
  intros H.
  destruct (Re.stars_today_search (Bs4.get_text_strip el)) as [g|] eqn:E;
    [|reflexivity].
  apply stars_today_search_today in E. congruence.
Qed.

(** X8. The counter of new stars is only read when its text says
    "today": on a page none of whose counters mention that word (a
    counter that reads "stars this week", for one) every record has
    [stars_today] and [period_stars] equal to 0. *)
Theorem period_stars_need_today (settings : Settings) (platform : Platform)
        (html_content : string) :
  (forall article, In article (entries platform html_content) -> no_today article) ->
  forall r,
    In r (records_from settings platform 0 (entries platform html_content)) ->
    stars_today r = 0 /\ period_stars r = 0.
Proof.
  intros H r Hr.
  apply records_from_In in Hr. destruct Hr as (j & article & Ha & Hp).
  apply parse_single_inv in Hp.
  destruct Hp as (path & joined & st & fk & today & _ & _ & _ & _ & _ & _ & _
                  & Ht & _ & _ & Htd & Hpd).
  rewrite (parse_stars_today_needs_today article (H _ Ha)) in Ht.
  injection Ht as <-. auto.
Qed.

(** The weekly page of [Demo2]: its record has no new stars although
    the page shows 1,234. *)
Lemma period_stars_need_today_witness :
  (forall article, In article (entries Demo2.platform Demo2.weekly_html) ->
                   no_today article)
  /\ exists r,
       records_from Demo.settings Demo2.platform 0
         (entries Demo2.platform Demo2.weekly_html) = [r]
       /\ stars_today r = 0 /\ period_stars r = 0.
Proof.
  assert (H : forall article,
             In article (entries Demo2.platform Demo2.weekly_html) ->
             no_today article).
  { intros article Ha. vm_compute in Ha. destruct Ha as [<-|[]].
    vm_compute. reflexivity. }
  split; [exact H|].
  eexists. split; [vm_compute; reflexivity|].
  apply (period_stars_need_today Demo.settings Demo2.platform Demo2.weekly_html H).
  vm_compute. left. reflexivity.
Defined.

(** ** Counters that cannot be read *)

Lemma parse_number_overflow (text : string) :
  Reference.overflows text = true ->
  _parse_number text
  = Raise (OverflowError "cannot convert float infinity to integer").
Proof.
  intros H. rewrite parse_number_unfold.
  unfold Reference.overflows in H.
  destruct (Reference.scaled_value text) as [[s|s| |s m e]|]; try discriminate.
  reflexivity.
Qed.

Lemma parse_stats_loop_overflow (stat_links : list Bs4.Tag) (link : Bs4.Tag) :
  In link stat_links ->
  (Str.contains "/stargazers" (link_href link)
   || Str.contains "/forks" (link_href link))%bool = true ->
  Reference.overflows (Bs4.get_text_strip link) = true ->
  forall stars forks, exists e, _parse_stats_loop stat_links stars forks = Raise e.
Proof.
  intros Hin Hk Ho.
  induction stat_links as [|l rest IH]; [destruct Hin|].
  intros stars forks. cbn [_parse_stats_loop]. fold (link_href l).
  destruct Hin as [->|Hin].
  - rewrite (parse_number_overflow _ Ho).
    destruct (Str.contains "/stargazers" (link_href link)); [now eexists|].
    cbn [orb] in Hk. rewrite Hk. now eexists.
  - destruct (Str.contains "/stargazers" (link_href l)).
    + destruct (_parse_number (Bs4.get_text_strip l)) as [n|e]; [|now eexists].
      cbn [obind]. apply IH, Hin.
    + destruct (Str.contains "/forks" (link_href l)).
      * destruct (_parse_number (Bs4.get_text_strip l)) as [n|e]; [|now eexists].
        cbn [obind]. apply IH, Hin.
      * apply IH, Hin.
Qed.

(** X9. One counter is enough to lose an entry: when the text of a
    stargazers or forks link of an entry reads as an infinite number
    ("inf", "1e999"), the error of the number parser is swallowed by
    [_parse_single_repository] and the entry yields no record at all. *)
Theorem overflowing_counter_drops_entry (settings : Settings) (platform : Platform)
        (clock : Z) (article : Bs4.Tag) :
  has_overflowing_counter article ->
  (exists e, _parse_stats article = Raise e)
  /\ _parse_single_repository settings platform clock article = Ret None.
Proof.
  intros (link & Hin & Hk & Ho).
  assert (Hs : exists e, _parse_stats article = Raise e)
    by (unfold _parse_stats; eapply parse_stats_loop_overflow; eauto).
  split; [exact Hs|]. destruct Hs as [e Hs].
  unfold _parse_single_repository.
  destruct (Bs4.find article (Bs4.by_class "h2" "h3 lh-condensed")) as [title|];
    [|reflexivity].
  destruct (Bs4.find title (Bs4.by_name "a")) as [a|]; [|reflexivity].
  destruct (negb _); [reflexivity|].
  destruct (urljoin platform _ _); [|reflexivity].
  cbn [obind].
  destruct (Str.split _ _) as [|o [|rn [|x parts]]]; try reflexivity.
  destruct (parse_language article). rewrite Hs. reflexivity.
Qed.

Lemma overflowing_counter_drops_entry_witness :
  has_overflowing_counter Demo2.overflowing_entry
  /\ (exists e, _parse_stats Demo2.overflowing_entry = Raise e)
  /\ _parse_single_repository Demo.settings Demo.platform 0 Demo2.overflowing_entry
     = Ret None.
Proof.
  assert (H : has_overflowing_counter Demo2.overflowing_entry).
  { eexists. split; [vm_compute; left; reflexivity|].
    split; vm_compute; reflexivity. }
  split; [exact H|].
  apply (overflowing_counter_drops_entry Demo.settings Demo.platform 0
           Demo2.overflowing_entry H).
Defined.

(** ** Names *)

Lemma split_join (x : ascii) (s : string) :
  String.concat (String x EmptyString) (Str.split x s) = s.
Proof.
  induction s as [|c s IH]; [reflexivity|].
  cbn [Str.split].
  destruct (Ascii.eqb c x) eqn:E.
  - apply Ascii.eqb_eq in E. subst c.
    destruct (Str.split x s) as [|h t] eqn:Es; [now apply split_nonempty in Es|].
    change (String.concat (String x "") ("" :: h :: t))
      with ("" ++ String x "" ++ String.concat (String x "") (h :: t)).
    rewrite IH. reflexivity.
  - destruct (Str.split x s) as [|h t] eqn:Es; [now apply split_nonempty in Es|].
    destruct t as [|h' t'].
    + change (String c h = String c s). f_equal. exact IH.
    + change (String c (h ++ String x "" ++ String.concat (String x "") (h' :: t'))
              = String c s).
      f_equal. exact IH.
Qed.

Lemma split_parts_free (x : ascii) (s : string) :
  forall p, In p (Str.split x s) -> mem_char x p = false.
Proof.
  induction s as [|c s IH]; intros p; cbn [Str.split].
  - intros [<-|[]]. reflexivity.
  - destruct (Ascii.eqb c x) eqn:E.
    + intros [<-|H]; [reflexivity|now apply IH].
    + destruct (Str.split x s) as [|h t] eqn:Es; [now apply split_nonempty in Es|].
      intros [<-|H].
      * cbn [mem_char]. rewrite E. apply IH. now left.
      * apply IH. now right.
Qed.

(** X10. In every record extraction emits, [name] is [owner], a
    slash and [repo_name], and neither part contains a slash. *)
Theorem name_is_owner_slash_repo (settings : Settings) (platform : Platform)
        (html_content : string) (r : TrendingRepository) :
  In r (records_from settings platform 0 (entries platform html_content)) ->
  name r = owner r ++ "/" ++ repo_name r
  /\ mem_char "/" (owner r) = false
  /\ mem_char "/" (repo_name r) = false.
Proof.
  intros Hr.
  apply records_from_In in Hr. destruct Hr as (j & article & _ & Hp).
  apply parse_single_inv in Hp.
  destruct Hp as (path & joined & st & fk & today & _ & _ & _ & _ & _ & Hs & _).
  split.
  - rewrite <- (split_join "/" (name r)), Hs. reflexivity.
  - split; apply (split_parts_free "/" (name r)); rewrite Hs; cbn; auto.
Qed.

Lemma name_is_owner_slash_repo_witness :
  exists r,
    records_from Demo.settings Demo.platform 0
      (entries Demo.platform (Demo.page_html Demo.negative_page)) = [r]
    /\ name r = owner r ++ "/" ++ repo_name r
    /\ mem_char "/" (owner r) = false
    /\ mem_char "/" (repo_name r) = false.
Proof.
  eexists. split; [vm_compute; reflexivity|].
  apply (name_is_owner_slash_repo Demo.settings Demo.platform
           (Demo.page_html Demo.negative_page)).
  vm_compute. left. reflexivity.
Defined.

(** ** The routes *)

Lemma limited_length (limit : Z) (l : list TrendingRepository) :
  1 <= limit -> Z.of_nat (List.length (limited limit l)) <= limit.
Proof.
  intros H. rewrite limited_firstn by exact H.
  rewrite length_firstn. lia.
Qed.

(** X11. Whatever the network does, [get_trending] with a limit of at
    least 1 either returns a response with [success] set, whose
    [total_count] is the number of its repositories and at most the
    limit, or raises an [HTTPException] with status 500 and the error
    code [CRAWL_ERROR]; the detail of the exception is the text of the
    error [fetch_trending] raised. *)
Theorem get_trending_reply (settings : Settings) (platform : Platform)
        (network : Network) (runtime : Api.Runtime)
        (language : option string) (since : string) (limit : Z) (w : world) :
  1 <= limit ->
  match Api.get_trending settings platform network runtime language since
          (Some limit) w with
  | (Api.Returned response, w') =>
      Api.success response = true
      /\ Api.total_count response
         = Z.of_nat (List.length (Api.repositories response))
      /\ Api.total_count response <= limit
      /\ fetch_trending settings platform network language since limit w
         = (Ret (Api.repositories response), w')
  | (Api.HTTPException status_code detail, w') =>
      status_code = 500
      /\ dict_get detail "success" = Some (PyBool false)
      /\ dict_get detail "error" = Some (PyStr "CRAWL_ERROR")
      /\ exists e,
           fetch_trending settings platform network language since limit w
           = (Raise e, w')
           /\ dict_get detail "detail" = Some (PyStr (str_exn e))
  end.
Proof.
  intros Hl. unfold Api.get_trending. cbn [Api.limit_argument].
  pose proof (fetch_trending_sound settings platform network language since limit w)
    as (_ & _ & Hs).
  cbv zeta in Hs.
  destruct (fetch_trending settings platform network language since limit w)
    as [[repositories|e] w'] eqn:E.
  - cbn [Api.success Api.total_count Api.repositories].
    repeat split; auto.
    cbn [fst snd] in Hs.
    destruct Hs as [(_ & -> & _)|(html & hs & nodes & _ & _ & ->)]; [cbn; lia|].
    now apply limited_length.
  - repeat split. exists e. split; reflexivity.
Qed.

(** A page of twenty entries asked for with limit 5, and a host that
    never answers. *)
Lemma get_trending_reply_witness :
  1 <= 5
  /\ match Api.get_trending Demo.settings Demo.platform
             (Demo.network 1 (Demo.page_html Demo.twenty_page)) Demo2.runtime
             (Some "Python") "daily" (Some 5) Demo.start with
     | (Api.Returned response, w') =>
         Api.success response = true
         /\ Api.total_count response
            = Z.of_nat (List.length (Api.repositories response))
         /\ Api.total_count response <= 5
         /\ fetch_trending Demo.settings Demo.platform
              (Demo.network 1 (Demo.page_html Demo.twenty_page))
              (Some "Python") "daily" 5 Demo.start
            = (Ret (Api.repositories response), w')
     | (Api.HTTPException status_code detail, w') =>
         status_code = 500
         /\ dict_get detail "success" = Some (PyBool false)
         /\ dict_get detail "error" = Some (PyStr "CRAWL_ERROR")
         /\ exists e,
              fetch_trending Demo.settings Demo.platform
                (Demo.network 1 (Demo.page_html Demo.twenty_page))
                (Some "Python") "daily" 5 Demo.start
              = (Raise e, w')
              /\ dict_get detail "detail" = Some (PyStr (str_exn e))
     end.
Proof.
  split; [lia|].
  apply (get_trending_reply Demo.settings Demo.platform
           (Demo.network 1 (Demo.page_html Demo.twenty_page)) Demo2.runtime
           (Some "Python") "daily" 5 Demo.start).
  lia.
Defined.

Lemma limited_zero (l : list TrendingRepository) : limited 0 l = l.
Proof. reflexivity. Qed.

(** X12. The route [get_trending_by_language] has no default limit:
    called without one, it answers with every record extracted from
    the page its last request received, of whatever number, for the
    address of the given language; otherwise it raises an
    [HTTPException] with status 500. *)
Theorem by_language_without_limit (settings : Settings) (platform : Platform)
        (network : Network) (runtime : Api.Runtime)
        (language since : string) (w : world) :
  match Api.get_trending_by_language settings platform network runtime
          language since None w with
  | (Api.Returned response, w') =>
      Api.language response = Some language
      /\ Api.total_count response
         = Z.of_nat (List.length (Api.repositories response))
      /\ ((max_retries settings <= 0 /\ Api.repositories response = [] /\ w' = w)
          \/ exists html_content headers,
               http network (requests w' - 1)
                    (_build_url settings (Some language) since)
               = Response 200 html_content headers
               /\ Api.repositories response
                  = records_from settings platform 0
                      (entries platform html_content))
  | (Api.HTTPException status_code detail, w') => status_code = 500
  end.
Proof.
  unfold Api.get_trending_by_language, Api.get_trending.
  cbn [Api.limit_argument].
  pose proof (fetch_trending_sound settings platform network (Some language)
                since 0 w) as (_ & _ & Hs).
  cbv zeta in Hs.
  destruct (fetch_trending settings platform network (Some language) since 0 w)
    as [[repositories|e] w'] eqn:E; [|reflexivity].
  cbn [Api.language Api.total_count Api.repositories fst snd] in *.
  split; [reflexivity|]. split; [reflexivity|].
  destruct Hs as [H|(html & hs & nodes & H1 & _ & H2)]; [left; exact H|right].
  exists html, hs. split; [exact H1|]. now rewrite H2, limited_zero.
Qed.

(** X13. The route [health_check] always returns a response, after
    exactly one request, and reports "healthy" exactly when that
    request to the base address was answered with status 200. *)
Theorem health_route_reports_probe (settings : Settings) (network : Network)
        (runtime : Api.Runtime) (w : world) :
  exists response w',
    Api.health_route settings network runtime w = (Api.Returned response, w')
    /\ requests w' = S (requests w)
    /\ Api.version response = Api.app_version runtime
    /\ (Api.status response = "healthy" \/ Api.status response = "unhealthy")
    /\ (Api.status response = "healthy"
        <-> exists text headers,
              http network (requests w) (github_base_url settings)
              = Response 200 text headers).
Proof.
  unfold Api.health_route, health_check, mtry, mbind, session_get, mret.
  destruct (http network (requests w) (github_base_url settings))
    as [status text headers|e] eqn:E.
  - destruct (status =? 200) eqn:Es.
    + apply Z.eqb_eq in Es. subst status.
      eexists _, _. split; [reflexivity|].
      cbn. repeat split; auto. intros _. eauto.
    + eexists _, _. split; [reflexivity|].
      cbn. repeat split; auto; try discriminate.
      intros (t & h & [= H _ _]). subst status. discriminate Es.
  - eexists _, _. split; [reflexivity|].
    cbn. repeat split; auto; try discriminate.
    intros (t & h & H). discriminate H.
Qed.

(** ** Configuration and addresses *)

(** X14. The two environment predicates of [app/config.py] ignore the
    case of the configured name and never hold together. *)
Theorem environment_modes_exclusive (environment : string) :
  (Config.is_development environment && Config.is_production environment)%bool
  = false
  /\ Config.is_development (Str.lower environment)
     = Config.is_development environment
  /\ Config.is_production (Str.lower environment)
     = Config.is_production environment.
Proof.
  unfold Config.is_development, Config.is_production.
  rewrite lower_idempotent. split; [|split; reflexivity].
  cbn [existsb].
  destruct (String.eqb (Str.lower environment) "development") eqn:E1.
  { apply String.eqb_eq in E1. rewrite E1. reflexivity. }
  destruct (String.eqb (Str.lower environment) "dev") eqn:E2.
  { apply String.eqb_eq in E2. rewrite E2. reflexivity. }
  reflexivity.
Qed.

Lemma nonempty_lower (s : string) : Str.nonempty (Str.lower s) = Str.nonempty s.
Proof. now destruct s. Qed.

(** X15. The address [_build_url] gives does not depend on the case of
    the language, and an empty language is no language. *)
Theorem build_url_ignores_case (settings : Settings) (language since : string) :
  _build_url settings (Some (Str.lower language)) since
  = _build_url settings (Some language) since
  /\ _build_url settings (Some "") since = _build_url settings None since.
Proof.
  unfold _build_url. rewrite nonempty_lower, lower_idempotent. split; reflexivity.
Qed.

(** ** Language colours *)

Lemma lstrip_by_mem (p : ascii -> bool) (x : ascii) (s : string) :
  mem_char x s = false -> mem_char x (Str.lstrip_by p s) = false.
Proof.
  induction s as [|c s IH]; [auto|].
  cbn [Str.lstrip_by]. destruct (p c); [|auto].
  cbn [mem_char]. intros H. apply orb_false_iff in H. now apply IH.
Qed.

Lemma rstrip_by_mem (p : ascii -> bool) (x : ascii) (s : string) :
  mem_char x s = false -> mem_char x (Str.rstrip_by p s) = false.
Proof.
  induction s as [|c s IH]; [auto|].
  cbn [Str.rstrip_by mem_char]. intros H. apply orb_false_iff in H.
  destruct H as [Hc Hs]. specialize (IH Hs).
  destruct (Str.rstrip_by p s) as [|d r].
  - destruct (p c); [reflexivity|]. cbn [mem_char]. now rewrite Hc.
  - cbn [mem_char] in *. now rewrite Hc, IH.
Qed.

Lemma strip_mem (x : ascii) (s : string) :
  mem_char x s = false -> mem_char x (Str.strip s) = false.
Proof. intros H. unfold Str.strip. now apply rstrip_by_mem, lstrip_by_mem. Qed.

Lemma rstrip_by_idempotent (p : ascii -> bool) (s : string) :
  Str.rstrip_by p (Str.rstrip_by p s) = Str.rstrip_by p s.
Proof.
  induction s as [|c s IH]; [reflexivity|].
  cbn [Str.rstrip_by].
  destruct (Str.rstrip_by p s) as [|d r] eqn:E.
  - destruct (p c) eqn:Ec; [reflexivity|].
    cbn [Str.rstrip_by]. now rewrite Ec.
  - cbn [Str.rstrip_by] in *. rewrite IH. reflexivity.
Qed.

Lemma rstrip_by_head (p : ascii -> bool) (c : ascii) (s : string) :
  p c = false -> exists r, Str.rstrip_by p (String c s) = String c r.
Proof.
  intros Hc. cbn [Str.rstrip_by].
  destruct (Str.rstrip_by p s); [rewrite Hc|]; eauto.
Qed.

Lemma lstrip_by_cases (p : ascii -> bool) (s : string) :
  Str.lstrip_by p s = EmptyString
  \/ exists c r, Str.lstrip_by p s = String c r /\ p c = false.
Proof.
  induction s as [|c s IH]; [now left|].
  cbn [Str.lstrip_by]. destruct (p c) eqn:E; [exact IH|].
  right. eauto.
Qed.

Lemma strip_idempotent (s : string) : Str.strip (Str.strip s) = Str.strip s.
Proof.
  unfold Str.strip.
  destruct (lstrip_by_cases Str.isspace s) as [->|(c & r & -> & Hc)];
    [reflexivity|].
  destruct (rstrip_by_head Str.isspace c r Hc) as [r' Hr].
  rewrite Hr at 1. cbn [Str.lstrip_by]. rewrite Hc, <- Hr.
  apply rstrip_by_idempotent.
Qed.

Lemma span_not_semicolon (s : string) :
  forall g r, Re.span (fun c => negb (Ascii.eqb c ";")) s = (g, r) ->
              mem_char ";" g = false.
Proof.
  induction s as [|c s IH]; cbn [Re.span]; intros g r.
  - now intros [= <- _].
  - destruct (Ascii.eqb c ";") eqn:E; cbn [negb].
    + now intros [= <- _].
    + destruct (Re.span _ s) as [a b]. intros [= <- _].
      cbn [mem_char]. rewrite (IH _ _ eq_refl), orb_false_r.
      rewrite Ascii.eqb_sym. exact E.
Qed.

Lemma span_last_char (p : ascii -> bool) (s : string) :
  forall a b c, Re.span p s = (a, b) -> Re.last_char a = Some c -> p c = true.
Proof.
  induction s as [|x s IH]; cbn [Re.span]; intros a b c.
  - intros [= <- _]. discriminate.
  - destruct (p x) eqn:E.
    + destruct (Re.span p s) as [a' b'] eqn:Es. intros [= <- _].
      cbn [Re.last_char]. destruct a' as [|y a''].
      * now intros [= <-].
      * apply (IH _ _ _ eq_refl).
    + intros [= <- _]. discriminate.
Qed.

Lemma background_color_here_chars (s g : string) :
  Re.background_color_here s = Some g -> mem_char ";" g = false.
Proof.
  unfold Re.background_color_here.
  destruct (Re.strip_prefix _ s) as [r|]; [|discriminate].
  destruct (Re.span Str.isspace r) as [ws r1] eqn:E1.
  destruct (Re.span _ r1) as [g' r2] eqn:E2.
  destruct g' as [|c g'].
  - destruct (Re.last_char ws) as [c|] eqn:El; [|discriminate].
    intros [= <-]. pose proof (span_last_char _ _ _ _ _ E1 El) as Hc.
    clear -Hc. revert Hc. each_char c; vm_compute; congruence.
  - intros [= <-]. eapply span_not_semicolon; eauto.
Qed.

Lemma background_color_search_chars (s g : string) :
  Re.background_color_search s = Some g -> mem_char ";" g = false.
Proof.
  induction s as [|c s IH]; cbn [Re.background_color_search].
  - destruct (Re.background_color_here "") eqn:E; [|discriminate].
    intros [= <-]. eapply background_color_here_chars; eauto.
  - destruct (Re.background_color_here (String c s)) eqn:E; [|exact IH].
    intros [= <-]. eapply background_color_here_chars; eauto.
Qed.

Lemma parse_language_shape (article : Bs4.Tag) (l : option string) (c : string) :
  parse_language article = (l, Some c) ->
  l <> None /\ mem_char ";" c = false /\ Str.strip c = c.
Proof.
  unfold parse_language.
  destruct (Bs4.find article _) as [lang_element|]; [|discriminate].
  destruct (Bs4.find_previous lang_element _) as [[n color_attrs]|]; [|discriminate].
  destruct (Re.background_color_search _) as [g|] eqn:E; [|discriminate].
  intros [= <- <-]. split; [discriminate|]. split.
  - apply strip_mem. eapply background_color_search_chars; eauto.
  - apply strip_idempotent.
Qed.

(** The constructor keeps the language and its colour. *)
Lemma TrendingRepository_init_language (platform : Platform)
      (n u : string) (d : option string) (st fk : Z) (l lc : option string)
      (today period : Z) (o rn : string) (av : option string) (t : Z)
      (r : TrendingRepository) :
  TrendingRepository_init platform n u d st fk l lc today period o rn av t = Ret r ->
  language r = l /\ language_color r = lc.
Proof.
  unfold TrendingRepository_init.
  destruct (HttpUrl platform u) as [u'|]; [|discriminate].
  destruct av as [a|].
  - destruct (HttpUrl platform a) as [a'|]; [|discriminate].
    intros [= <-]. simpl. tauto.
  - intros [= <-]. simpl. tauto.
Qed.

Lemma parse_single_language (settings : Settings) (platform : Platform)
      (clock : Z) (article : Bs4.Tag) (r : TrendingRepository) :
  _parse_single_repository settings platform clock article = Ret (Some r) ->
  parse_language article = (language r, language_color r).
Proof.
  unfold _parse_single_repository.
  destruct (Bs4.find article (Bs4.by_class "h2" "h3 lh-condensed")) as [title|];
    [|discriminate].
  destruct (Bs4.find title (Bs4.by_name "a")) as [link|]; [|discriminate].
  destruct (negb _); [discriminate|].
  destruct (urljoin platform _ _) as [repo_url|e]; [|discriminate].
  cbn [obind].
  destruct (Str.split _ _) as [|o [|rn [|x parts]]]; try discriminate.
  destruct (parse_language article) as [lang color].
  destruct (_parse_stats article) as [[st fk]|e]; [|discriminate].
  cbn [obind].
  destruct (_parse_stars_today article) as [today|e]; [|discriminate].
  cbn [obind].
  destruct (_parse_avatar_url settings platform article) as [av|e]; [|discriminate].
  cbn [obind].
  destruct (TrendingRepository_init _ _ _ _ _ _ _ _ _ _ _ _ _ _) as [r'|e] eqn:Hi;
    [|discriminate].
  cbn [obind try_except]. intros [= <-].
  apply TrendingRepository_init_language in Hi. destruct Hi as [-> ->].
  reflexivity.
Qed.

(** X16. A record has a language colour only together with a language,
    and the colour is free of semicolons and of surrounding
    whitespace. *)
Theorem language_color_shape (settings : Settings) (platform : Platform)
        (clock : Z) (article : Bs4.Tag) (r : TrendingRepository) (color : string) :
  _parse_single_repository settings platform clock article = Ret (Some r) ->
  language_color r = Some color ->
  language r <> None
  /\ mem_char ";" color = false
  /\ Str.strip color = color.
Proof.
  intros Hp Hc. apply parse_single_language in Hp. rewrite Hc in Hp.
  eapply parse_language_shape; eauto.
Qed.

Lemma language_color_shape_witness :
  exists r,
    (_parse_single_repository Demo.settings Demo.platform 0 Demo2.daily_entry
     = Ret (Some r)
     /\ language_color r = Some "#3572A5")
    /\ language r <> None
    /\ mem_char ";" "#3572A5" = false
    /\ Str.strip "#3572A5" = "#3572A5".
Proof.
  eexists.
  assert (H1 : _parse_single_repository Demo.settings Demo.platform 0
                 Demo2.daily_entry = Ret (Some _))
    by (vm_compute; reflexivity).
  split; [split; [exact H1|reflexivity]|].
  apply (language_color_shape Demo.settings Demo.platform 0 Demo2.daily_entry
           _ "#3572A5" H1).
  reflexivity.
Defined.

(** ** The counter of new stars, read exactly *)

Lemma isdigit_digits_and_commas (c : ascii) (m : string) :
  Str.isdigit c = true -> digits_and_commas m = true ->
  digits_and_commas (String c m) = true.
Proof. intros Hc Hm. cbn [digits_and_commas]. now rewrite Hc, Hm. Qed.

Lemma group_tail_digits (s : string) :
  forall m rest, Re.group_tail s = (m, rest) -> digits_and_commas m = true.
Proof.
  induction s as [|c s IH]; cbn [Re.group_tail]; intros m rest.
  - now intros [= <- _].
  - destruct (Str.isdigit c) eqn:Ed.
    + destruct (Re.group_tail s) as [m' rest']. intros [= <- _].
      apply isdigit_digits_and_commas; eauto.
    + destruct (Ascii.eqb c ",") eqn:Ec; [|now intros [= <- _]].
      destruct s as [|d s']; [now intros [= <- _]|].
      destruct (Str.isdigit d); [|now intros [= <- _]].
      destruct (Re.group_tail (String d s')) as [m' rest']. intros [= <- _].
      cbn [digits_and_commas]. rewrite Ec, orb_true_r. cbn [andb]. eauto.
Qed.

Lemma stars_today_here_digits (s g : string) :
  Re.stars_today_here s = Some g -> digits_and_commas g = true.
Proof.
  unfold Re.stars_today_here.
  destruct s as [|c s]; [discriminate|].
  destruct (Str.isdigit c) eqn:Ed; [|discriminate].
  destruct (Re.group_tail s) as [m rest] eqn:Eg.
  destruct (Re.spaces1 rest) as [r1|]; [|discriminate].
  destruct (Re.strip_prefix "star" r1) as [r2|]; [|discriminate].
  destruct (Re.spaces1 _) as [r4|]; [|discriminate].
  destruct (Re.strip_prefix "today" r4); [|discriminate].
  intros [= <-].
  apply isdigit_digits_and_commas; [exact Ed|].
  eapply group_tail_digits; eauto.
Qed.

Lemma stars_today_search_digits (s g : string) :
  Re.stars_today_search s = Some g -> digits_and_commas g = true.
Proof.
  induction s as [|c s IH]; cbn [Re.stars_today_search].
  - destruct (Re.stars_today_here "") eqn:E; [|discriminate].
    intros [= <-]. eapply stars_today_here_digits; eauto.
  - destruct (Re.stars_today_here (String c s)) eqn:E; [|exact IH].
    intros [= <-]. eapply stars_today_here_digits; eauto.
Qed.

(** X17. When the counter of an entry matches the pattern, the number
    of new stars is exactly the decimal number the pattern captures,
    its thousands separators passed over, as long as that number is
    below [2 ** 53]. *)
Theorem stars_today_exact (article star_element : Bs4.Tag) (group1 : string) :
  Bs4.find article (Bs4.by_class "span" "d-inline-block float-sm-right")
  = Some star_element ->
  Re.stars_today_search (Bs4.get_text_strip star_element) = Some group1 ->
  decimal_value group1 < 2 ^ 53 ->
  _parse_stars_today article = Ret (decimal_value group1).
Proof.
  intros Hf Hs Hv. unfold _parse_stars_today. rewrite Hf, Hs.
  apply parse_number_digits; [|exact Hv].
  eapply stars_today_search_digits; eauto.
Qed.

Lemma stars_today_exact_witness :
  exists star_element,
    (Bs4.find Demo2.daily_entry (Bs4.by_class "span" "d-inline-block float-sm-right")
     = Some star_element
     /\ Re.stars_today_search (Bs4.get_text_strip star_element) = Some "1,234"
     /\ decimal_value "1,234" < 2 ^ 53)
    /\ _parse_stars_today Demo2.daily_entry = Ret 1234.
Proof.
  eexists.
  assert (H1 : Bs4.find Demo2.daily_entry
                 (Bs4.by_class "span" "d-inline-block float-sm-right")
               = Some _) by (vm_compute; reflexivity).
  assert (H2 : Re.stars_today_search
                 (Bs4.get_text_strip
                    (Bs4.mkTag "span" [("class", "d-inline-block float-sm-right")]
                       [Bs4.Text " 1,234 stars today "]
                       [("span", [("itemprop", "programmingLanguage")]);
                        ("span", [("class", "repo-language-color");
                                  ("style", "background-color: #3572A5 ;")]);
                        ("a", [("href", "/octo/cat")]);
                        ("h2", [("class", "h3 lh-condensed")]);
                        ("article", [("class", "Box-row")])]))
               = Some "1,234") by (vm_compute; reflexivity).
  assert (H3 : decimal_value "1,234" < 2 ^ 53) by (vm_compute; reflexivity).
  split; [split; [exact H1|split; [exact H2|exact H3]]|].
  apply (stars_today_exact Demo2.daily_entry _ "1,234" H1 H2 H3).
Defined.
